(** * scripts/build_snomed_db.py: the SNOMED description importer

    A shallow embedding of [convert_to_sqlite] and of the part of its
    environment it acts on: the two paths it touches, the rows the csv
    reader yields, the sqlite3 connection with its open transaction, and
    the console.  The function is embedded statement by statement in a
    state-and-exception monad over that environment.

    What the libraries do is written out where the script relies on it:
    [row[i]] raises IndexError past the end of a row; [next] raises
    StopIteration on an exhausted reader; [id TEXT PRIMARY KEY] makes an
    INSERT of an id already in the table raise IntegrityError; the INSERTs
    of [executemany] run in the transaction that sqlite3 opens implicitly
    and that only [conn.commit()] ends, while the DDL statements, run with
    no transaction open, take effect at once; a [with] block closes its
    file however it is left.

    The source file is text.  Line 49 puts [csv.reader] with its default
    dialect, tab as delimiter, on it: [csv_reader] embeds the parser of the
    csv module, double quotes included, and gives the turns of the reader,
    each a row or a read failure, that the run consumes ([on_disk]).  On a
    text without double quotes the rows are the lines split at the tabs
    ([csv_reader_lines]); the statements that speak of lines and of
    tab-separated fields are made on the text, those that speak of what
    the reader yields on its rows.  Characters are the 256 of [ascii]; the
    parser treats all of them alike but TAB, LF, CR and the double quote,
    and takes the NUL character as any other, as CPython does from 3.11
    on.  Failures of the operating system on the destination are not part
    of the model. *)

From Stdlib Require Import List String Ascii ZArith Lia Bool FinFun.
Import ListNotations.
Local Open Scope string_scope.
Local Open Scope list_scope.

(** ** Python values and exceptions *)

(** What a call hands back to its caller: [convert_to_sqlite] has a bare
    [return] and otherwise falls off its end, both of which give [None]. *)
Inductive value : Type :=
  | PyNone
  | PyInt (n : Z).

Inductive exn : Type :=
  | StopIteration      (* next() on an exhausted iterator *)
  | IndexError         (* row[i] with i >= len(row) *)
  | ReadError          (* OSError, UnicodeDecodeError or csv.Error while reading *)
  | FileNotFoundError  (* open() or os.remove() of an absent path *)
  | IntegrityError     (* sqlite3: UNIQUE constraint failed: descriptions.id *)
  | OperationalError   (* sqlite3: table or index already exists, no such table *)
  | DatabaseError      (* sqlite3: file is not a database *)
  | ProgrammingError.  (* sqlite3: no usable connection *)

Inductive result (A : Type) : Type :=
  | Ok (a : A)
  | Raise (e : exn).
Arguments Ok {A} a.
Arguments Raise {A} e.

(** ** Data *)

(** A record as [csv.reader(f, delimiter='\t')] yields it: the list of its
    fields. *)
Definition row : Type := list string.

(** One turn of the reader: either it yields a row, or reading fails. *)
Inductive item : Type :=
  | Row (r : row)
  | Fault.

(** The tuple appended to [batch], which is also a row of table
    [descriptions (id, conceptId, term, active)]. *)
Record description : Type := Description {
  id : string;
  conceptId : string;
  term : string;
  active : Z
}.

(** The objects the three DDL statements of the script create. *)
Inductive schema_object : Type :=
  | TABLE_descriptions
  | INDEX_idx_term
  | INDEX_idx_concept.

Definition schema_object_eqb (a b : schema_object) : bool :=
  match a, b with
  | TABLE_descriptions, TABLE_descriptions
  | INDEX_idx_term, INDEX_idx_term
  | INDEX_idx_concept, INDEX_idx_concept => true
  | _, _ => false
  end.

(** A database file: its schema and the committed rows of [descriptions],
    in insertion order. *)
Record database : Type := Database {
  schema : list schema_object;
  descriptions : list description
}.

Inductive file : Type :=
  | Other (content : string)   (* anything that is not a database *)
  | Sqlite (db : database).

Inductive handle : Type :=
  | Unopened
  | Opened
  | Closed.

(** The connection [conn]: absent, open with the rows inserted by the
    transaction in progress (not yet committed), or closed. *)
Inductive connection : Type :=
  | NoConnection
  | Connected (pending : list description)
  | Disconnected.

Inductive message : Type :=
  | Error_Source_file_not_found
  | Creating_SQLite_DB
  | Reading_SNOMED_file
  | Processed_rows (count : Z)
  | Done_Imported (count : Z).

Inductive path : Type :=
  | SNOMED_DESC_PATH
  | DB_OUTPUT_PATH.

(** ** The environment *)

Record world : Type := World {
  source_file : option (list item);  (* the turns of csv.reader on what lies
                                        at SNOMED_DESC_PATH, see [on_disk] *)
  dest_file : option file;           (* what lies at DB_OUTPUT_PATH *)
  stdout : list message;
  f : handle;                        (* the file object of the with statement *)
  conn : connection
}.

Definition set_dest_file (d : option file) (w : world) : world :=
  World (source_file w) d (stdout w) (f w) (conn w).
Definition set_source_file (s : option (list item)) (w : world) : world :=
  World s (dest_file w) (stdout w) (f w) (conn w).
Definition set_stdout (o : list message) (w : world) : world :=
  World (source_file w) (dest_file w) o (f w) (conn w).
Definition set_f (h : handle) (w : world) : world :=
  World (source_file w) (dest_file w) (stdout w) h (conn w).
Definition set_conn (c : connection) (w : world) : world :=
  World (source_file w) (dest_file w) (stdout w) (f w) c.

(** The state of the world before the script starts. *)
Definition initial (src : option (list item)) (dst : option file) : world :=
  World src dst [] Unopened NoConnection.

(** ** The monad: state with exceptions

    A raised exception keeps the world as it was when it was raised. *)
Definition M (A : Type) : Type := world -> result A * world.

Definition ret {A} (a : A) : M A := fun w => (Ok a, w).
Definition raise {A} (e : exn) : M A := fun w => (Raise e, w).
Definition bind {A B} (m : M A) (k : A -> M B) : M B :=
  fun w => match m w with
           | (Ok a, w') => k a w'
           | (Raise e, w') => (Raise e, w')
           end.
Definition lift {A} (r : result A) : M A := fun w => (r, w).

Declare Scope py_scope.
Delimit Scope py_scope with py.
Notation "x <- c ;; k" := (bind c (fun x => k))
  (at level 61, c at next level, right associativity) : py_scope.
Notation "' p <- c ;; k" := (bind c (fun x => match x with p => k end))
  (at level 61, p pattern, c at next level, right associativity) : py_scope.
Notation "c ;; k" := (bind c (fun _ => k))
  (at level 61, right associativity) : py_scope.
Local Open Scope py_scope.

(** ** Library calls *)

Definition print (m : message) : M unit :=
  fun w => (Ok tt, set_stdout (stdout w ++ [m]) w).

Definition is_some {A} (o : option A) : bool :=
  match o with Some _ => true | None => false end.

Definition os_path_exists (p : path) : M bool :=
  fun w => match p with
           | SNOMED_DESC_PATH => (Ok (is_some (source_file w)), w)
           | DB_OUTPUT_PATH => (Ok (is_some (dest_file w)), w)
           end.

Definition os_remove (p : path) : M unit :=
  fun w => match p with
           | SNOMED_DESC_PATH =>
               if is_some (source_file w) then (Ok tt, set_source_file None w)
               else (Raise FileNotFoundError, w)
           | DB_OUTPUT_PATH =>
               if is_some (dest_file w) then (Ok tt, set_dest_file None w)
               else (Raise FileNotFoundError, w)
           end.

(** [sqlite3.connect(DB_OUTPUT_PATH)]: an absent file is created as an
    empty database. *)
Definition sqlite3_connect : M unit :=
  fun w => match dest_file w with
           | None => (Ok tt, set_conn (Connected [])
                                (set_dest_file (Some (Sqlite (Database [] []))) w))
           | Some _ => (Ok tt, set_conn (Connected []) w)
           end.

(** The database behind the open connection. *)
Definition connected_db (w : world) : result (database * list description) :=
  match conn w with
  | Connected pending =>
      match dest_file w with
      | Some (Sqlite db) => Ok (db, pending)
      | _ => Raise DatabaseError
      end
  | _ => Raise ProgrammingError
  end.

Definition has_object (o : schema_object) (db : database) : bool :=
  existsb (schema_object_eqb o) (schema db).

(** [cursor.execute] of one of the three DDL statements.  No transaction is
    open when the script runs them, so each takes effect in the file at
    once. *)
Definition cursor_execute (stmt : schema_object) : M unit :=
  fun w => match connected_db w with
           | Raise e => (Raise e, w)
           | Ok (db, _) =>
               if has_object stmt db then (Raise OperationalError, w)
               else
                 match stmt with
                 | TABLE_descriptions =>
                     (Ok tt, set_dest_file
                               (Some (Sqlite (Database (schema db ++ [stmt])
                                                       (descriptions db)))) w)
                 | _ =>
                     if has_object TABLE_descriptions db
                     then (Ok tt, set_dest_file
                                    (Some (Sqlite (Database (schema db ++ [stmt])
                                                            (descriptions db)))) w)
                     else (Raise OperationalError, w)
                 end
           end.

Definition has_id (k : string) (rows : list description) : bool :=
  existsb (fun d => String.eqb (id d) k) rows.

(** The INSERT statements of one [executemany], in order.  [id] is the
    primary key: a tuple whose id is already in the table, committed or
    inserted earlier in the transaction, raises, and the tuples inserted
    before it stay in the transaction. *)
Fixpoint insert_all (committed pending batch : list description)
  : result unit * list description :=
  match batch with
  | [] => (Ok tt, pending)
  | d :: batch' =>
      if has_id (id d) (committed ++ pending)
      then (Raise IntegrityError, pending)
      else insert_all committed (pending ++ [d]) batch'
  end.

Definition cursor_executemany (batch : list description) : M unit :=
  fun w => match connected_db w with
           | Raise e => (Raise e, w)
           | Ok (db, pending) =>
               let (r, pending') := insert_all (descriptions db) pending batch in
               (r, set_conn (Connected pending') w)
           end.

(** [conn.commit()]: the rows of the transaction become rows of the file. *)
Definition conn_commit : M unit :=
  fun w => match connected_db w with
           | Raise e => (Raise e, w)
           | Ok (db, pending) =>
               (Ok tt, set_conn (Connected [])
                         (set_dest_file
                            (Some (Sqlite (Database (schema db)
                                                    (descriptions db ++ pending)))) w))
           end.

(** [conn.close()]: whatever was not committed is dropped. *)
Definition conn_close : M unit :=
  fun w => match conn w with
           | Connected _ => (Ok tt, set_conn Disconnected w)
           | _ => (Raise ProgrammingError, w)
           end.

(** [with open(SNOMED_DESC_PATH, ...) as f: reader = csv.reader(f, ...)]:
    the body runs on the reader, and [f] is closed however the body ends.
    The reader is given by its turns; [csv_reader] computes them from the
    text of the file, and [on_disk] starts the run from a text. *)
Definition with_open {A} (body : list item -> M A) : M A :=
  fun w => match source_file w with
           | None => (Raise FileNotFoundError, w)
           | Some reader =>
               let (r, w') := body reader (set_f Opened w) in
               (r, set_f Closed w')
           end.

(** [next(reader)]: the first row is dropped, the rest of the reader is
    what the loop iterates over. *)
Definition next (reader : list item) : M (list item) :=
  match reader with
  | [] => raise StopIteration
  | Fault :: _ => raise ReadError
  | Row _ :: reader' => ret reader'
  end.

(** [row[i]] *)
Definition getitem (r : row) (i : nat) : result string :=
  match nth_error r i with
  | Some s => Ok s
  | None => Raise IndexError
  end.

Definition len {A} (l : list A) : Z := Z.of_nat (List.length l).

(** ** The script *)

(** Lines 55-57: the filter and the projection of one row. *)
Definition filter_row (r : row) (count : Z) (batch : list description)
  : result (Z * list description) :=
  match getitem r 2 with
  | Raise e => Raise e
  | Ok flag =>
      if String.eqb flag "1" then
        match getitem r 0 with
        | Raise e => Raise e
        | Ok r0 =>
            match getitem r 4 with
            | Raise e => Raise e
            | Ok r4 =>
                match getitem r 7 with
                | Raise e => Raise e
                | Ok r7 => Ok ((count + 1)%Z, batch ++ [Description r0 r4 r7 1])
                end
            end
        end
      else Ok (count, batch)
  end.

(** Lines 59-63: the flush of a full batch. *)
Definition flush_if_full (BATCH_SIZE : Z) (count : Z) (batch : list description)
  : M (list description) :=
  if (BATCH_SIZE <=? len batch)%Z then
    cursor_executemany batch ;;
    (if (count mod 100000 =? 0)%Z then print (Processed_rows count) else ret tt) ;;
    ret []
  else ret batch.

(** Lines 52-63: [for row in reader]. *)
Fixpoint for_row_in (BATCH_SIZE : Z) (reader : list item)
    (count : Z) (batch : list description) : M (Z * list description) :=
  match reader with
  | [] => ret (count, batch)
  | Fault :: _ => raise ReadError
  | Row r :: reader' =>
      '(count, batch) <- lift (filter_row r count batch) ;;
      batch <- flush_if_full BATCH_SIZE count batch ;;
      for_row_in BATCH_SIZE reader' count batch
  end.

(** Lines 52-67: the loop, then the insert of what remains in [batch]. *)
Definition load (BATCH_SIZE : Z) (reader : list item)
    (count : Z) (batch : list description) : M Z :=
  '(count, batch) <- for_row_in BATCH_SIZE reader count batch ;;
  match batch with
  | [] => ret tt
  | _ :: _ => cursor_executemany batch
  end ;;
  ret count.

(** Lines 44-45 and 48-67: [count = 0], [batch = []] and the body of the
    with statement. *)
Definition read_all (BATCH_SIZE : Z) (reader : list item) : M Z :=
  reader <- next reader ;;
  load BATCH_SIZE reader 0%Z [].

(** [convert_to_sqlite], with the local constant [BATCH_SIZE] as a
    parameter. *)
Definition convert_to_sqlite_with (BATCH_SIZE : Z) : M value :=
  found <- os_path_exists SNOMED_DESC_PATH ;;
  if negb found then
    print Error_Source_file_not_found ;;
    ret PyNone
  else
    print Creating_SQLite_DB ;;
    old <- os_path_exists DB_OUTPUT_PATH ;;
    (if old then os_remove DB_OUTPUT_PATH else ret tt) ;;
    sqlite3_connect ;;
    cursor_execute TABLE_descriptions ;;
    cursor_execute INDEX_idx_term ;;
    cursor_execute INDEX_idx_concept ;;
    print Reading_SNOMED_file ;;
    count <- with_open (read_all BATCH_SIZE) ;;
    conn_commit ;;
    conn_close ;;
    print (Done_Imported count) ;;
    ret PyNone.

Definition BATCH_SIZE : Z := 10000.

Definition convert_to_sqlite : M value := convert_to_sqlite_with BATCH_SIZE.

(** ** What the script is meant to compute

    The definitions of this part follow the description of the import, not
    its code: which rows are accepted, what is kept of them, and on which
    inputs the import can complete. *)

(** The field at index 2 is exactly the string ['1']. *)
Definition accepted (r : row) : bool :=
  match nth_error r 2 with
  | Some flag => String.eqb flag "1"
  | None => false
  end.

(** Fields 0, 4 and 7, with the constant 1. *)
Definition projection (r : row) : option description :=
  match nth_error r 0, nth_error r 4, nth_error r 7 with
  | Some r0, Some r4, Some r7 => Some (Description r0 r4 r7 1)
  | _, _, _ => None
  end.

(** A turn of the reader the loop survives: a row with a field at index 2
    and, when that field is ['1'], with a field at index 7. *)
Definition readable (it : item) : bool :=
  match it with
  | Fault => false
  | Row r => (3 <=? List.length r)%nat
             && (negb (accepted r) || (8 <=? List.length r)%nat)
  end.

Definition accepted_item (it : item) : bool :=
  match it with
  | Fault => false
  | Row r => accepted r
  end.

(** The data lines whose field at index 2 is ['1']. *)
Definition accepted_lines (data : list item) : list item :=
  filter accepted_item data.

(** The projections of the accepted rows, in the order of the source. *)
Fixpoint accepted_rows (data : list item) : list description :=
  match data with
  | [] => []
  | Fault :: data' => accepted_rows data'
  | Row r :: data' =>
      if accepted r then
        match projection r with
        | Some d => d :: accepted_rows data'
        | None => accepted_rows data'
        end
      else accepted_rows data'
  end.

(** [batch] can be inserted, tuple after tuple, into a table that holds
    [existing]: no id is met twice. *)
Fixpoint fresh_all (existing batch : list description) : bool :=
  match batch with
  | [] => true
  | d :: batch' =>
      negb (has_id (id d) existing) && fresh_all (existing ++ [d]) batch'
  end.

Definition distinct_ids (rows : list description) : bool := fresh_all [] rows.

(** The inputs on which the import completes: a header, then readable
    rows only, and no id twice among the accepted ones. *)
Definition importable (src : list item) : bool :=
  match src with
  | Row _ :: data => forallb readable data && distinct_ids (accepted_rows data)
  | _ => false
  end.

(** The rows of table [descriptions] in the file at DB_OUTPUT_PATH. *)
Definition stored (w : world) : list description :=
  match dest_file w with
  | Some (Sqlite db) => descriptions db
  | _ => []
  end.

(** The schema the script builds. *)
Definition built_schema : list schema_object :=
  [TABLE_descriptions; INDEX_idx_term; INDEX_idx_concept].

(** Row [d] holds fields 0, 4 and 7 of [r], and the constant 1. *)
Definition projects_to (r : row) (d : description) : Prop :=
  nth_error r 0 = Some (id d) /\ nth_error r 4 = Some (conceptId d)
  /\ nth_error r 7 = Some (term d) /\ active d = 1%Z.

(** Every resource the run acquired has been released. *)
Definition released (w : world) : Prop :=
  f w <> Opened /\ forall P, conn w <> Connected P.

(** ** Stages of a run *)

(** The world at the entry of the with statement, when the source exists:
    whatever lay at DB_OUTPUT_PATH has been replaced by an empty database
    with the schema, and the connection is open. *)
Definition prepared (src : list item) : world :=
  World (Some src) (Some (Sqlite (Database built_schema [])))
        [Creating_SQLite_DB; Reading_SNOMED_file] Opened (Connected []).

(** Lines 69-71. *)
Definition finish (count : Z) : M value :=
  conn_commit ;; conn_close ;; print (Done_Imported count) ;; ret PyNone.

(** ** Sources to run the script on *)

Definition header : item :=
  Row ["id"; "effectiveTime"; "active"; "moduleId"; "conceptId";
       "languageCode"; "typeId"; "term"; "caseSignificanceId"].

(** A full line of the snapshot. *)
Definition line (id_ flag concept term_ : string) : item :=
  Row [id_; "20250801"; flag; "900000000000207008"; concept; "en";
       "900000000000013009"; term_; "900000000000448009"].

(** The scenario of three data lines with flags 1, 0, 1. *)
Definition three_lines : list item :=
  [header;
   line "101" "1" "138875005" "SNOMED CT Concept";
   line "102" "0" "138875005" "SNOMED RT Concept";
   line "103" "1" "404684003" "Clinical finding"].

(** The same id on two active lines. *)
Definition twice_101 : list item :=
  [header;
   line "101" "1" "138875005" "SNOMED CT Concept";
   line "101" "1" "404684003" "Clinical finding"].

(** An active line cut after its flag. *)
Definition cut_active : list item :=
  [header; Row ["101"; "20250801"; "1"]].

(** An inactive line cut after its flag. *)
Definition cut_inactive : list item :=
  [header; Row ["101"; "20250801"; "0"]].

(** Sources of any size: line number [k] is active and has an id of its
    own, the binary digits of [k + 1]. *)
Fixpoint bits (p : positive) : string :=
  match p with
  | xH => EmptyString
  | xO q => String "0"%char (bits q)
  | xI q => String "1"%char (bits q)
  end.

Definition numbered (k : nat) : item :=
  line (bits (Pos.of_succ_nat k)) "1" "138875005" "SNOMED CT Concept".

Definition numbered_description (k : nat) : description :=
  Description (bits (Pos.of_succ_nat k)) "138875005" "SNOMED CT Concept" 1.

Definition census (n : Z) : list item := map numbered (seq 0 (Z.to_nat n)).

(** A source that fills exactly one batch and then cannot be read any
    further. *)
Definition interrupted (n : Z) : list item := header :: census n ++ [Fault].

(** ** The source file as text

    Line 48 opens the file in text mode and line 49 hands it to
    [csv.reader(f, delimiter='\t')].  This part embeds both: the decoded
    text of the file, its newline translation, its lines, and the parser of
    the csv module in the dialect the call selects (tab as delimiter, the
    double quote as quote character, doubled quotes allowed, not strict,
    minimal quoting).  [csv_reader] gives the turns of the reader that the
    rest of the model starts from. *)

Definition TAB : ascii := "009"%char.
Definition LF : ascii := "010"%char.
Definition CR : ascii := "013"%char.
(** The double quote, character 34. *)
Definition DQUOTE : ascii := Ascii false true false false false true false false.

(** Text mode with the default [newline=None]: CR LF and a lone CR are
    read as LF. *)
Fixpoint universal_newlines (s : string) : string :=
  match s with
  | EmptyString => EmptyString
  | String c rest =>
      if Ascii.eqb c CR then
        String LF
          match rest with
          | String c' rest' =>
              if Ascii.eqb c' LF then universal_newlines rest'
              else universal_newlines rest
          | EmptyString => EmptyString
          end
      else String c (universal_newlines rest)
  end.

(** The lines a file object yields, each with its LF when it has one. *)
Fixpoint readlines (s : string) : list string :=
  match s with
  | EmptyString => []
  | String c rest =>
      if Ascii.eqb c LF then String LF EmptyString :: readlines rest
      else
        match readlines rest with
        | [] => [String c EmptyString]
        | l :: ls => String c l :: ls
        end
  end.

(** The states of the parser that this dialect reaches. *)
Inductive ParserState : Type :=
  | START_RECORD
  | START_FIELD
  | IN_FIELD
  | IN_QUOTED_FIELD
  | QUOTE_IN_QUOTED_FIELD
  | EAT_CRNL.

(** The reader object: its state, the fields saved for the record in
    progress, and the field in progress. *)
Record ReaderObj : Type := Reader {
  state : ParserState;
  fields : list string;
  field : string
}.

Definition parse_reset : ReaderObj := Reader START_RECORD [] EmptyString.

Definition parse_save_field (p : ReaderObj) (next_state : ParserState) : ReaderObj :=
  Reader next_state (fields p ++ [field p]) EmptyString.

Definition parse_add_char (p : ReaderObj) (c : ascii) (next_state : ParserState)
  : ReaderObj :=
  Reader next_state (fields p) (field p ++ String c EmptyString).

Definition is_newline (c : ascii) : bool := Ascii.eqb c LF || Ascii.eqb c CR.

(** One character, or the end of the line ([None]), in state START_FIELD. *)
Definition start_field (p : ReaderObj) (c : option ascii) : ReaderObj :=
  match c with
  | None => parse_save_field p START_RECORD
  | Some c =>
      if is_newline c then parse_save_field p EAT_CRNL
      else if Ascii.eqb c DQUOTE then Reader IN_QUOTED_FIELD (fields p) (field p)
      else if Ascii.eqb c TAB then parse_save_field p START_FIELD
      else parse_add_char p c IN_FIELD
  end.

(** [parse_process_char]: one character, or the end of the line. *)
Definition parse_process_char (p : ReaderObj) (c : option ascii) : result ReaderObj :=
  match state p with
  | START_RECORD =>
      match c with
      | None => Ok p
      | Some c' =>
          if is_newline c' then Ok (Reader EAT_CRNL (fields p) (field p))
          else Ok (start_field p c)
      end
  | START_FIELD => Ok (start_field p c)
  | IN_FIELD =>
      match c with
      | None => Ok (parse_save_field p START_RECORD)
      | Some c =>
          if is_newline c then Ok (parse_save_field p EAT_CRNL)
          else if Ascii.eqb c TAB then Ok (parse_save_field p START_FIELD)
          else Ok (parse_add_char p c IN_FIELD)
      end
  | IN_QUOTED_FIELD =>
      match c with
      | None => Ok p
      | Some c =>
          if Ascii.eqb c DQUOTE
          then Ok (Reader QUOTE_IN_QUOTED_FIELD (fields p) (field p))
          else Ok (parse_add_char p c IN_QUOTED_FIELD)
      end
  | QUOTE_IN_QUOTED_FIELD =>
      match c with
      | None => Ok (parse_save_field p START_RECORD)
      | Some c =>
          if Ascii.eqb c DQUOTE then Ok (parse_add_char p c IN_QUOTED_FIELD)
          else if Ascii.eqb c TAB then Ok (parse_save_field p START_FIELD)
          else if is_newline c then Ok (parse_save_field p EAT_CRNL)
          else Ok (parse_add_char p c IN_FIELD)
      end
  | EAT_CRNL =>
      match c with
      | None => Ok (Reader START_RECORD (fields p) (field p))
      | Some c => if is_newline c then Ok p else Raise ReadError
      end
  end.

(** The characters of one line, then the end of the line. *)
Fixpoint process_line (p : ReaderObj) (line : string) : result ReaderObj :=
  match line with
  | EmptyString => parse_process_char p None
  | String c rest =>
      match parse_process_char p (Some c) with
      | Ok p' => process_line p' rest
      | Raise e => Raise e
      end
  end.

Definition is_IN_QUOTED_FIELD (s : ParserState) : bool :=
  match s with IN_QUOTED_FIELD => true | _ => false end.

(** The turns of the reader over the lines that remain: a record is given
    when a line ends in state START_RECORD, lines are joined while it does
    not, and at the end of the input a record in progress is given as it
    stands. *)
Fixpoint reader_turns (p : ReaderObj) (lines : list string) : list item :=
  match lines with
  | [] =>
      if negb (String.eqb (field p) EmptyString) || is_IN_QUOTED_FIELD (state p)
      then [Row (fields p ++ [field p])]
      else []
  | line :: rest =>
      match process_line p line with
      | Raise _ => [Fault]
      | Ok p' =>
          match state p' with
          | START_RECORD => Row (fields p') :: reader_turns parse_reset rest
          | _ => reader_turns p' rest
          end
      end
  end.

(** Lines 48-49 on a file with this text. *)
Definition csv_reader (text : string) : list item :=
  reader_turns parse_reset (readlines (universal_newlines text)).

(** The world before the script starts, from what the two paths hold. *)
Definition on_disk (text : option string) (dst : option file) : world :=
  initial (option_map csv_reader text) dst.

(** *** Lines and tab-separated fields *)

(** A line without its LF. *)
Fixpoint chomp (l : string) : string :=
  match l with
  | EmptyString => EmptyString
  | String c rest => if Ascii.eqb c LF then EmptyString else String c (chomp rest)
  end.

(** The lines of the source, without their ends. *)
Definition source_lines (text : string) : list string :=
  map chomp (readlines (universal_newlines text)).

(** What lies between the tabs of a line. *)
Fixpoint split_tab (l : string) : list string :=
  match l with
  | EmptyString => [EmptyString]
  | String c rest =>
      if Ascii.eqb c TAB then EmptyString :: split_tab rest
      else
        match split_tab rest with
        | [] => [String c EmptyString]
        | fld :: flds => String c fld :: flds
        end
  end.

(** The tab-separated fields of a line; an empty line has none. *)
Definition tab_fields (l : string) : row :=
  match l with
  | EmptyString => []
  | _ => split_tab l
  end.

(** The lines of the source as rows of tab-separated fields. *)
Definition line_rows (text : string) : list item :=
  map (fun l => Row (tab_fields l)) (source_lines text).

Fixpoint has_char (c : ascii) (s : string) : bool :=
  match s with
  | EmptyString => false
  | String c' rest => Ascii.eqb c' c || has_char c rest
  end.

(** The text holds no double quote. *)
Definition quote_free (s : string) : bool := negb (has_char DQUOTE s).

(** Writing a file: fields joined by tabs, lines ended by LF. *)
Fixpoint join_tab (flds : list string) : string :=
  match flds with
  | [] => EmptyString
  | [fld] => fld
  | fld :: rest => fld ++ String TAB (join_tab rest)
  end.

Fixpoint text_of (lines : list string) : string :=
  match lines with
  | [] => EmptyString
  | l :: rest => l ++ String LF (text_of rest)
  end.

(** *** Text the reader splits at tabs and line ends only *)

(** A line as the file object gives it, with no double quote and no CR,
    and LF nowhere but at its end. *)
Fixpoint plain (l : string) : bool :=
  match l with
  | EmptyString => true
  | String c rest =>
      if Ascii.eqb c LF then String.eqb rest EmptyString
      else negb (Ascii.eqb c DQUOTE) && negb (Ascii.eqb c CR) && plain rest
  end.

(** The fields of [flds], the first one continuing [cur]. *)
Definition glue (cur : string) (flds : list string) : list string :=
  match flds with
  | [] => [cur]
  | fld :: rest => (cur ++ fld)%string :: rest
  end.

(** A line of text proper: no double quote, no CR, no LF. *)
Definition plain_text (l : string) : bool :=
  negb (has_char DQUOTE l) && negb (has_char CR l) && negb (has_char LF l).

(** The field at index 2 of the line is exactly ['1']. *)
Definition flagged (l : string) : bool := accepted (tab_fields l).

(** The field at index [i] of a line, empty when the line has none. *)
Definition field_of (i : nat) (l : string) : string :=
  nth i (tab_fields l) EmptyString.

(** The tuple lines 55-56 build from a line: fields 0, 4 and 7, and 1. *)
Definition line_description (l : string) : description :=
  Description (field_of 0 l) (field_of 4 l) (field_of 7 l) 1.

(** A line the loop survives: it has a field at index 2 and, when that
    field is ['1'], a field at index 7. *)
Definition well_formed (l : string) : bool := readable (Row (tab_fields l)).

(** *** Files to run the script on *)

(** The file whose lines are the given rows, fields joined by tabs. *)
Definition file_of (src : list item) : string :=
  text_of (map (fun it => match it with Row r => join_tab r | Fault => EmptyString end)
               src).

Definition header_line : string :=
  join_tab ["id"; "effectiveTime"; "active"; "moduleId"; "conceptId";
            "languageCode"; "typeId"; "term"; "caseSignificanceId"].

Definition snapshot_line (id_ flag concept term_ : string) : string :=
  join_tab [id_; "20250801"; flag; "900000000000207008"; concept; "en";
            "900000000000013009"; term_; "900000000000448009"].

(** A term whose first word stands between double quotes. *)
Definition lupus_term : string :=
  String DQUOTE ("Lupus" ++ String DQUOTE " anticoagulant").

Definition lupus_line : string := snapshot_line "101" "1" "404684003" lupus_term.

Definition lupus_file : string := text_of [header_line; lupus_line].

(** Three active lines, the term of the first opening a quote that is
    never closed. *)
Definition open_quote_file : string :=
  text_of [header_line;
           snapshot_line "101" "1" "138875005" (String DQUOTE "SNOMED CT Concept");
           snapshot_line "102" "1" "404684003" "Clinical finding";
           snapshot_line "103" "1" "71388002" "Procedure"].

(** ** The console and the caller *)

(** The values [count] takes after [c]: c + 1, ..., c + m. *)
Definition counts_after (c : Z) (m : nat) : list Z :=
  map (fun i => (c + Z.of_nat i)%Z) (seq 1 m).

(** A value of [count] at which, with threshold [b], a batch is full and
    line 62 lets the progress line through. *)
Definition noticed (b c : Z) : bool :=
  ((c mod b =? 0) && (c mod 100000 =? 0))%Z.

(** The progress lines for the [m] accepted rows that follow [c]. *)
Definition progress_notices (b c : Z) (m : nat) : list message :=
  map Processed_rows (filter (noticed b) (counts_after c m)).

(** Lines 73-74: the file run as a script.  The result of the call is
    dropped; the interpreter ends with status 0 when the call returns and
    with status 1 when an exception leaves it.  (Line 7, which only lifts
    the limit on the size of a field, is taken to have run.) *)
Definition main : world -> Z * world :=
  fun w => match convert_to_sqlite w with
           | (Ok _, w') => (0%Z, w')
           | (Raise _, w') => (1%Z, w')
           end.

(** ** The primary key *)

Lemma has_id_app k l1 l2 :
  has_id k (l1 ++ l2) = has_id k l1 || has_id k l2.
Proof. unfold has_id. apply existsb_app. Qed.

Lemma has_id_In k l : has_id k l = true <-> In k (map id l).
Proof.
  unfold has_id. rewrite existsb_exists, in_map_iff. split.
  - intros [d [Hd He]]. apply String.eqb_eq in He. now exists d.
  - intros [d [He Hd]]. exists d. split; [assumption|]. now apply String.eqb_eq.
Qed.

Lemma fresh_all_app E l1 l2 :
  fresh_all E (l1 ++ l2) = fresh_all E l1 && fresh_all (E ++ l1) l2.
Proof.
  revert E. induction l1 as [|d l1 IH]; intros E; simpl.
  - now rewrite app_nil_r.
  - rewrite IH, <- app_assoc. simpl. now rewrite andb_assoc.
Qed.

Lemma fresh_all_NoDup l E :
  fresh_all E l = true <->
  NoDup (map id l) /\ (forall k, In k (map id l) -> ~ In k (map id E)).
Proof.
  revert E. induction l as [|d l IH]; intros E; simpl.
  - split; [intros _; split; [constructor | intros k []] | reflexivity].
  - rewrite andb_true_iff, negb_true_iff, IH, map_app. simpl. split.
    + intros [Hd [Hn Hf]]. split.
      * constructor; [|assumption]. intros Hin.
        apply (Hf _ Hin), in_or_app. right. now left.
      * intros k [<- | Hk] Hin.
        -- apply has_id_In in Hin. congruence.
        -- apply (Hf _ Hk), in_or_app. now left.
    + intros [Hn Hf]. inversion Hn as [|? ? Hd Hl]; subst. split; [|split].
      * destruct (has_id (id d) E) eqn:He; [|reflexivity].
        apply has_id_In in He. exfalso. apply (Hf (id d)); [now left | assumption].
      * assumption.
      * intros k Hk Hin. apply in_app_or in Hin. destruct Hin as [Hin | [<- | []]].
        -- apply (Hf k); [now right | assumption].
        -- contradiction.
Qed.

Lemma distinct_ids_NoDup l : distinct_ids l = true <-> NoDup (map id l).
Proof.
  unfold distinct_ids. rewrite fresh_all_NoDup. simpl. split.
  - now intros [H _].
  - intros H. split; [assumption | intros k _ []].
Qed.

Lemma insert_all_fresh C P B :
  fresh_all (C ++ P) B = true -> insert_all C P B = (Ok tt, P ++ B).
Proof.
  revert P. induction B as [|d B IH]; intros P; simpl.
  - now rewrite app_nil_r.
  - rewrite andb_true_iff, negb_true_iff. intros [Hd Hf]. rewrite Hd.
    rewrite <- app_assoc in Hf. rewrite (IH _ Hf), <- app_assoc. reflexivity.
Qed.

Lemma insert_all_clash C P B :
  fresh_all (C ++ P) B = false ->
  exists P', insert_all C P B = (Raise IntegrityError, P').
Proof.
  revert P. induction B as [|d B IH]; intros P; simpl; [discriminate|].
  destruct (has_id (id d) (C ++ P)); simpl.
  - intros _. now exists P.
  - rewrite <- app_assoc. apply IH.
Qed.

(** ** One row *)

Lemma accepted_flag r : accepted r = true <-> nth_error r 2 = Some "1".
Proof.
  unfold accepted. destruct (nth_error r 2) as [flag|]; split; try discriminate.
  - intros H. apply String.eqb_eq in H. now subst.
  - intros [= ->]. reflexivity.
Qed.

Lemma projection_projects_to r d : projection r = Some d -> projects_to r d.
Proof.
  unfold projection, projects_to.
  destruct (nth_error r 0); [|discriminate].
  destruct (nth_error r 4); [|discriminate].
  destruct (nth_error r 7); [|discriminate].
  intros [= <-]. now repeat split.
Qed.

Lemma filter_row_skip r count batch :
  (3 <= List.length r)%nat -> accepted r = false ->
  filter_row r count batch = Ok (count, batch).
Proof.
  intros Hlen. unfold accepted, filter_row, getitem.
  destruct (nth_error r 2) as [flag|] eqn:E.
  - now intros ->.
  - apply nth_error_None in E. lia.
Qed.

Lemma filter_row_keep r count batch :
  accepted r = true -> (8 <= List.length r)%nat ->
  exists d, projection r = Some d /\
            filter_row r count batch = Ok ((count + 1)%Z, batch ++ [d]).
Proof.
  unfold accepted, projection, filter_row, getitem. intros Ha Hlen.
  destruct (nth_error r 2) as [flag|]; [|discriminate]. rewrite Ha.
  destruct (nth_error r 0) as [r0|] eqn:E0; [|apply nth_error_None in E0; lia].
  destruct (nth_error r 4) as [r4|] eqn:E4; [|apply nth_error_None in E4; lia].
  destruct (nth_error r 7) as [r7|] eqn:E7; [|apply nth_error_None in E7; lia].
  eexists. split; reflexivity.
Qed.

Lemma filter_row_short r count batch :
  readable (Row r) = false -> filter_row r count batch = Raise IndexError.
Proof.
  unfold readable, accepted, filter_row, getitem.
  destruct (nth_error r 2) as [flag|] eqn:E2.
  - assert (H2 : (2 < List.length r)%nat) by (apply nth_error_Some; congruence).
    replace (3 <=? List.length r)%nat with true by (symmetry; apply Nat.leb_le; lia).
    cbn [andb]. destruct (String.eqb flag "1"); cbn [negb orb]; [|discriminate].
    intros H8. apply Nat.leb_gt in H8.
    destruct (nth_error r 0); [|reflexivity].
    destruct (nth_error r 4); [|reflexivity].
    destruct (nth_error r 7) eqn:E7; [|reflexivity].
    assert ((7 < List.length r)%nat) by (apply nth_error_Some; congruence). lia.
  - reflexivity.
Qed.

Lemma readable_Row r :
  readable (Row r) = true <->
  (3 <= List.length r)%nat /\ (accepted r = false \/ (8 <= List.length r)%nat).
Proof.
  cbn [readable].
  now rewrite andb_true_iff, orb_true_iff, negb_true_iff, !Nat.leb_le.
Qed.

(** From [H : readable (Row r) = true]: the row is either not accepted, or
    accepted with fields up to index 7. *)
Ltac readable_cases H r :=
  let H3 := fresh "H3" in
  let H8 := fresh "H8" in
  let Ha := fresh "Ha" in
  apply readable_Row in H; destruct H as [H3 H8];
  destruct (accepted r) eqn:Ha;
  [ destruct H8 as [H8|H8]; [discriminate H8|] | clear H8 ].

(** What one readable row adds to [batch] and to [count]. *)
Lemma filter_row_readable r count batch :
  readable (Row r) = true ->
  filter_row r count batch =
    Ok ((count + len (accepted_rows [Row r]))%Z, batch ++ accepted_rows [Row r]).
Proof.
  intros Hr. cbn [accepted_rows]. readable_cases Hr r.
  - destruct (filter_row_keep r count batch Ha H8) as [d [-> ->]]. reflexivity.
  - rewrite (filter_row_skip r count batch H3 Ha), app_nil_r.
    unfold len. simpl. now rewrite Z.add_0_r.
Qed.

Lemma accepted_rows_cons it data :
  accepted_rows (it :: data) = accepted_rows [it] ++ accepted_rows data.
Proof.
  destruct it as [r|]; simpl; [|reflexivity].
  destruct (accepted r); [|reflexivity].
  destruct (projection r); reflexivity.
Qed.

Lemma accepted_rows_app xs ys :
  accepted_rows (xs ++ ys) = accepted_rows xs ++ accepted_rows ys.
Proof.
  induction xs as [|it xs IH]; [reflexivity|].
  rewrite <- app_comm_cons, accepted_rows_cons, IH, app_assoc.
  now rewrite <- accepted_rows_cons.
Qed.

Lemma len_app {A} (l1 l2 : list A) : len (l1 ++ l2) = (len l1 + len l2)%Z.
Proof. unfold len. rewrite length_app. lia. Qed.

(** On readable rows the accepted lines and the projected rows match one
    to one. *)
Lemma accepted_rows_length data :
  forallb readable data = true ->
  List.length (accepted_rows data) = List.length (accepted_lines data).
Proof.
  induction data as [|it data IH]; [reflexivity|].
  cbn [forallb]. rewrite andb_true_iff. intros [Hr Hd]. specialize (IH Hd).
  destruct it as [r|]; [|discriminate].
  unfold accepted_lines in *. cbn [filter accepted_item accepted_rows].
  readable_cases Hr r; [|assumption].
  destruct (filter_row_keep r 0%Z [] Ha H8) as [d [-> _]]. simpl.
  now rewrite IH.
Qed.

Lemma accepted_rows_origin d data :
  In d (accepted_rows data) ->
  exists r, In (Row r) data /\ nth_error r 2 = Some "1" /\ projects_to r d.
Proof.
  assert (Hrest : forall it rest,
            (exists r, In (Row r) rest /\ nth_error r 2 = Some "1" /\ projects_to r d) ->
            exists r, In (Row r) (it :: rest) /\ nth_error r 2 = Some "1"
                      /\ projects_to r d).
  { intros it rest [r [Hr H]]. exists r. split; [now right | assumption]. }
  induction data as [|[r|] data IH]; cbn [accepted_rows];
    [intros [] | | now auto].
  destruct (accepted r) eqn:Ha; [|now auto].
  destruct (projection r) as [d'|] eqn:Hp; [|now auto].
  intros [<- | Hin]; [|now auto].
  exists r. split; [now left|].
  split; [now apply accepted_flag | now apply projection_projects_to].
Qed.

Lemma accepted_rows_pairing data :
  forallb readable data = true ->
  Forall2 (fun it d => exists r, it = Row r /\ nth_error r 2 = Some "1"
                                 /\ projects_to r d)
          (accepted_lines data) (accepted_rows data).
Proof.
  induction data as [|it data IH]; [constructor|].
  cbn [forallb]. rewrite andb_true_iff. intros [Hr Hd]. specialize (IH Hd).
  destruct it as [r|]; [|discriminate].
  unfold accepted_lines in *. cbn [filter accepted_item accepted_rows].
  readable_cases Hr r; [|assumption].
  destruct (filter_row_keep r 0%Z [] Ha H8) as [d [Hp _]]. rewrite Hp.
  constructor; [|assumption]. exists r. split; [reflexivity|].
  split; [now apply accepted_flag | now apply projection_projects_to].
Qed.

(** [importable], spelled out. *)
Lemma importable_iff src :
  importable src = true <->
  exists h data,
    src = Row h :: data
    /\ Forall (fun it => exists r, it = Row r /\ (3 <= List.length r)%nat
                 /\ (nth_error r 2 = Some "1" -> (8 <= List.length r)%nat)) data
    /\ NoDup (map id (accepted_rows data)).
Proof.
  assert (Hread : forall it, readable it = true <->
            exists r, it = Row r /\ (3 <= List.length r)%nat
              /\ (nth_error r 2 = Some "1" -> (8 <= List.length r)%nat)).
  { intros [r|].
    - rewrite readable_Row. split.
      + intros [H3 H8]. exists r. repeat split; [assumption|].
        intros Ha. apply accepted_flag in Ha.
        destruct H8 as [H8|H8]; [congruence | assumption].
      + intros [r' [[= <-] [H3 H8]]]. split; [assumption|].
        destruct (accepted r) eqn:Ha; [right | now left].
        now apply H8, accepted_flag.
    - split; [discriminate | intros [r [[=] _]]]. }
  split.
  - destruct src as [|[h|] data]; try discriminate. simpl.
    rewrite andb_true_iff, forallb_forall, distinct_ids_NoDup.
    intros [Hr Hn]. exists h, data. repeat split; [|assumption].
    apply Forall_forall. intros it Hit. apply Hread, Hr, Hit.
  - intros [h [data [-> [Hr Hn]]]]. simpl.
    rewrite andb_true_iff, forallb_forall, distinct_ids_NoDup.
    split; [|assumption]. intros it Hit. apply Hread.
    rewrite Forall_forall in Hr. now apply Hr.
Qed.

(** ** The loop *)

Lemma executemany_connected w db P batch :
  dest_file w = Some (Sqlite db) -> conn w = Connected P ->
  cursor_executemany batch w =
    (fst (insert_all (descriptions db) P batch),
     set_conn (Connected (snd (insert_all (descriptions db) P batch))) w).
Proof.
  unfold cursor_executemany, connected_db. intros -> ->.
  now destruct insert_all.
Qed.

Section Loop.

(** The threshold: nothing below depends on its value. *)
Variable b : Z.

(** The three ways lines 59-63 can go: no flush, a flush that inserts the
    whole batch, a flush that meets an id twice. *)
Lemma flush_if_full_cases count batch w db P r w' :
  dest_file w = Some (Sqlite db) -> conn w = Connected P ->
  flush_if_full b count batch w = (r, w') ->
  source_file w' = source_file w /\ dest_file w' = dest_file w /\ f w' = f w /\
  ((r = Ok batch /\ w' = w /\ (len batch < b)%Z)
   \/ (r = Ok [] /\ conn w' = Connected (P ++ batch) /\ (b <= len batch)%Z
       /\ fresh_all (descriptions db ++ P) batch = true)
   \/ (r = Raise IntegrityError /\ (exists P', conn w' = Connected P')
       /\ (b <= len batch)%Z /\ fresh_all (descriptions db ++ P) batch = false)).
Proof.
  intros Hd Hc. unfold flush_if_full.
  destruct (b <=? len batch)%Z eqn:Hb.
  - apply Z.leb_le in Hb. unfold bind.
    rewrite (executemany_connected w db P batch Hd Hc).
    destruct (fresh_all (descriptions db ++ P) batch) eqn:Hf.
    + rewrite (insert_all_fresh _ _ _ Hf). cbn [fst snd].
      destruct (count mod 100000 =? 0)%Z; intros [= <- <-];
        (repeat split; try reflexivity; right; left; repeat split; assumption).
    + destruct (insert_all_clash _ _ _ Hf) as [P' ->]. cbn [fst snd].
      intros [= <- <-]. repeat split; try reflexivity.
      right; right. repeat split; try assumption. now exists P'.
  - apply Z.leb_gt in Hb. intros [= <- <-].
    repeat split; try reflexivity. left. repeat split; assumption.
Qed.

Lemma load_nil count batch w :
  load b [] count batch w =
    match batch with
    | [] => (Ok count, w)
    | _ :: _ =>
        match cursor_executemany batch w with
        | (Ok _, w') => (Ok count, w')
        | (Raise e, w') => (Raise e, w')
        end
    end.
Proof.
  unfold load, bind. simpl. destruct batch; [reflexivity|].
  destruct (cursor_executemany _ w) as [[?|?] ?]; reflexivity.
Qed.

Lemma load_Fault reader count batch w :
  load b (Fault :: reader) count batch w = (Raise ReadError, w).
Proof. reflexivity. Qed.

Lemma load_Row r reader count batch w :
  load b (Row r :: reader) count batch w =
    match filter_row r count batch with
    | Raise e => (Raise e, w)
    | Ok (count', batch') =>
        match flush_if_full b count' batch' w with
        | (Ok batch'', w') => load b reader count' batch'' w'
        | (Raise e, w') => (Raise e, w')
        end
    end.
Proof.
  unfold load. cbn [for_row_in]. unfold bind, lift. cbv beta.
  destruct (filter_row r count batch) as [[count' batch']|e]; [|reflexivity].
  cbv beta iota.
  destruct (flush_if_full b count' batch' w) as [[batch''|e] w']; reflexivity.
Qed.

Lemma for_row_in_Row r reader count batch w :
  for_row_in b (Row r :: reader) count batch w =
    match filter_row r count batch with
    | Raise e => (Raise e, w)
    | Ok (count', batch') =>
        match flush_if_full b count' batch' w with
        | (Ok batch'', w') => for_row_in b reader count' batch'' w'
        | (Raise e, w') => (Raise e, w')
        end
    end.
Proof.
  cbn [for_row_in]. unfold bind, lift. cbv beta.
  destruct (filter_row r count batch) as [[count' batch']|e]; reflexivity.
Qed.

(** The loop over a prefix of the reader, then the rest of the work. *)
Lemma load_app xs ys : forall count batch w,
  load b (xs ++ ys) count batch w =
    match for_row_in b xs count batch w with
    | (Ok (count', batch'), w') => load b ys count' batch' w'
    | (Raise e, w') => (Raise e, w')
    end.
Proof.
  induction xs as [|[r|] xs IH]; intros count batch w; [reflexivity | | reflexivity].
  rewrite <- app_comm_cons, load_Row, for_row_in_Row.
  destruct (filter_row r count batch) as [[count' batch']|e]; [|reflexivity].
  destruct (flush_if_full b count' batch' w) as [[batch''|e] w']; [apply IH | reflexivity].
Qed.

(** While [batch] stays below the threshold the loop touches nothing but
    [count] and [batch]. *)
Lemma for_row_in_below xs : forall count batch w,
  forallb readable xs = true ->
  (len (batch ++ accepted_rows xs) < b)%Z ->
  for_row_in b xs count batch w =
    (Ok ((count + len (accepted_rows xs))%Z, batch ++ accepted_rows xs), w).
Proof.
  induction xs as [|it xs IH]; intros count batch w Hr Hlen.
  - simpl. unfold ret, len. simpl. now rewrite Z.add_0_r, app_nil_r.
  - cbn [forallb] in Hr. apply andb_true_iff in Hr. destruct Hr as [Hit Hxs].
    destruct it as [r|]; [|discriminate].
    rewrite (accepted_rows_cons (Row r) xs) in *. rewrite app_assoc in Hlen.
    rewrite for_row_in_Row, (filter_row_readable _ _ _ Hit).
    unfold flush_if_full.
    replace (b <=? len (batch ++ accepted_rows [Row r]))%Z with false.
    + unfold ret. rewrite (IH _ _ _ Hxs Hlen), len_app, app_assoc.
      now rewrite Z.add_assoc.
    + symmetry. apply Z.leb_gt. rewrite len_app in Hlen.
      pose proof (Nat2Z.is_nonneg (List.length (accepted_rows xs))).
      unfold len in *. lia.
Qed.

(** The loop and the last insert, from any state of [count], [batch] and
    the transaction: they complete exactly when every remaining row is
    readable and no id is met twice, whatever the threshold; they leave the
    files alone, and every row they insert stays in the transaction. *)
Lemma load_spec reader : forall count batch w db P r w',
  dest_file w = Some (Sqlite db) -> conn w = Connected P ->
  load b reader count batch w = (r, w') ->
  source_file w' = source_file w /\ dest_file w' = dest_file w /\ f w' = f w /\
  if forallb readable reader
     && fresh_all (descriptions db ++ P) (batch ++ accepted_rows reader)
  then r = Ok (count + len (accepted_rows reader))%Z
       /\ conn w' = Connected (P ++ batch ++ accepted_rows reader)
  else exists e P', r = Raise e /\ conn w' = Connected P'.
Proof.
  induction reader as [|it reader IH]; intros count batch w db P r w' Hd Hc.
  - rewrite load_nil. cbn [forallb accepted_rows andb]. rewrite app_nil_r.
    unfold len at 1. simpl List.length. rewrite Z.add_0_r.
    destruct batch as [|d batch].
    + intros [= <- <-]. simpl. rewrite app_nil_r. now repeat split.
    + rewrite (executemany_connected w db P _ Hd Hc).
      destruct (fresh_all (descriptions db ++ P) (d :: batch)) eqn:Hf.
      * rewrite (insert_all_fresh _ _ _ Hf). cbn [fst snd].
        intros [= <- <-]. now repeat split.
      * destruct (insert_all_clash _ _ _ Hf) as [P' ->]. cbn [fst snd].
        intros [= <- <-]. repeat split; try reflexivity.
        now exists IntegrityError, P'.
  - destruct it as [row|].
    2:{ rewrite load_Fault. intros [= <- <-]. repeat split; try reflexivity.
        simpl. now exists ReadError, P. }
    rewrite load_Row. cbn [forallb].
    destruct (readable (Row row)) eqn:Hr.
    2:{ rewrite (filter_row_short _ _ _ Hr). intros [= <- <-].
        repeat split; try reflexivity. simpl. now exists IndexError, P. }
    rewrite (filter_row_readable _ _ _ Hr). cbn [andb].
    rewrite (accepted_rows_cons (Row row) reader), app_assoc.
    set (batch1 := batch ++ accepted_rows [Row row]).
    set (count1 := (count + len (accepted_rows [Row row]))%Z).
    destruct (flush_if_full b count1 batch1 w) as [r1 w1] eqn:Hflush.
    destruct (flush_if_full_cases _ _ _ _ _ _ _ Hd Hc Hflush)
      as [Hs [Hdw [Hf Hcases]]].
    destruct Hcases
      as [[-> [-> Hlt]] | [[-> [Hc1 [Hle Hfresh]]] | [-> [[P' Hc1] [Hle Hfresh]]]]].
    + intros Hload. destruct (IH _ _ _ _ _ _ _ Hd Hc Hload) as [Hs' [Hd' [Hf' Hres]]].
      repeat split; try assumption.
      replace (count + len (accepted_rows [Row row] ++ accepted_rows reader))%Z
        with (count1 + len (accepted_rows reader))%Z
        by (unfold count1; rewrite len_app; lia).
      replace (P ++ batch ++ accepted_rows [Row row] ++ accepted_rows reader)
        with (P ++ batch1 ++ accepted_rows reader)
        by (unfold batch1; now rewrite <- !app_assoc).
      exact Hres.
    + intros Hload. rewrite <- Hdw in Hd.
      destruct (IH _ _ _ _ _ _ _ Hd Hc1 Hload) as [Hs' [Hd' [Hf' Hres]]].
      repeat split; try congruence.
      rewrite fresh_all_app, Hfresh. cbn [andb app] in *.
      rewrite app_assoc in Hres.
      replace (count + len (accepted_rows [Row row] ++ accepted_rows reader))%Z
        with (count1 + len (accepted_rows reader))%Z
        by (unfold count1; rewrite len_app; lia).
      replace ((P ++ batch1) ++ accepted_rows reader)
        with (P ++ batch1 ++ accepted_rows reader) in Hres by apply app_assoc.
      exact Hres.
    + intros [= <- <-]. repeat split; try assumption.
      rewrite fresh_all_app, Hfresh, andb_false_r.
      now exists IntegrityError, P'.
Qed.

End Loop.

(** ** The whole function *)

Lemma convert_to_sqlite_with_source b src dst :
  convert_to_sqlite_with b (initial (Some src) dst) =
    match read_all b src (prepared src) with
    | (Ok count, w) => finish count (set_f Closed w)
    | (Raise e, w) => (Raise e, set_f Closed w)
    end.
Proof.
  unfold convert_to_sqlite_with, finish, bind at 1. cbn [os_path_exists initial source_file is_some negb].
  destruct dst as [d|]; cbv [bind print os_path_exists os_remove sqlite3_connect
    cursor_execute with_open connected_db has_object initial set_stdout set_dest_file
    set_conn set_f is_some source_file dest_file stdout f conn schema descriptions
    existsb schema_object_eqb app orb ret];
    match goal with
    | |- context [read_all b src ?w0] =>
        change w0 with (prepared src);
        destruct (read_all b src (prepared src)) as [[count|e] w]
    end; reflexivity.
Qed.

Lemma read_all_header b h data w :
  read_all b (Row h :: data) w = load b data 0%Z [] w.
Proof. reflexivity. Qed.

(** What a run on an existing source leaves behind, for every threshold. *)
Lemma convert_to_sqlite_with_spec b src dst r w :
  convert_to_sqlite_with b (initial (Some src) dst) = (r, w) ->
  source_file w = Some src /\ f w = Closed /\
  if importable src
  then r = Ok PyNone
       /\ dest_file w = Some (Sqlite (Database built_schema (accepted_rows (tl src))))
       /\ conn w = Disconnected
       /\ exists out, stdout w = out ++ [Done_Imported (len (accepted_rows (tl src)))]
  else exists e P, r = Raise e
       /\ dest_file w = Some (Sqlite (Database built_schema []))
       /\ conn w = Connected P.
Proof.
  rewrite convert_to_sqlite_with_source.
  destruct src as [|[h|] data].
  - intros [= <- <-]. simpl. repeat split. now exists StopIteration, [].
  - rewrite read_all_header.
    destruct (load b data 0%Z [] (prepared (Row h :: data))) as [r1 w1] eqn:Hload.
    destruct (load_spec b data 0%Z [] (prepared (Row h :: data))
                (Database built_schema []) [] r1 w1 eq_refl eq_refl Hload)
      as [Hs [Hd [Hf Hres]]].
    cbn [descriptions app tl importable] in *. unfold distinct_ids.
    destruct (forallb readable data && fresh_all [] (accepted_rows data)).
    + destruct Hres as [-> Hc]. destruct w1 as [s1 d1 o1 f1 c1].
      cbn [source_file dest_file f conn prepared] in *. subst.
      intros [= <- <-]. simpl. repeat split. now eexists.
    + destruct Hres as [e [P' [-> Hc]]]. intros [= <- <-].
      destruct w1 as [s1 d1 o1 f1 c1].
      cbn [source_file dest_file f conn prepared] in *. subst.
      simpl. repeat split. now exists e, P'.
  - intros [= <- <-]. simpl. repeat split. now exists ReadError, [].
Qed.

(** Without a source nothing happens but a message. *)
Lemma convert_to_sqlite_with_no_source b dst :
  convert_to_sqlite_with b (initial None dst) =
    (Ok PyNone, World None dst [Error_Source_file_not_found] Unopened NoConnection).
Proof. reflexivity. Qed.

Lemma run_importable b src dst :
  importable src = true ->
  exists out,
    convert_to_sqlite_with b (initial (Some src) dst) =
      (Ok PyNone,
       World (Some src)
             (Some (Sqlite (Database built_schema (accepted_rows (tl src)))))
             (out ++ [Done_Imported (len (accepted_rows (tl src)))])
             Closed Disconnected).
Proof.
  intros Hi.
  destruct (convert_to_sqlite_with b (initial (Some src) dst)) as [r w] eqn:Hrun.
  destruct (convert_to_sqlite_with_spec _ _ _ _ _ Hrun) as [Hs [Hf Hres]].
  rewrite Hi in Hres. destruct Hres as [-> [Hd [Hc [out Ho]]]].
  exists out. destruct w; simpl in *; now subst.
Qed.

Lemma run_not_importable b src dst :
  importable src = false ->
  exists e out P,
    convert_to_sqlite_with b (initial (Some src) dst) =
      (Raise e,
       World (Some src) (Some (Sqlite (Database built_schema [])))
             out Closed (Connected P)).
Proof.
  intros Hi.
  destruct (convert_to_sqlite_with b (initial (Some src) dst)) as [r w] eqn:Hrun.
  destruct (convert_to_sqlite_with_spec _ _ _ _ _ Hrun) as [Hs [Hf Hres]].
  rewrite Hi in Hres. destruct Hres as [e [P [-> [Hd Hc]]]].
  exists e, (stdout w), P. destruct w; simpl in *; now subst.
Qed.

(** A run on an existing source is of one of these two kinds: the tactic
    replaces the run by its outcome in the goal. *)
Ltac run_cases b src dst :=
  let Hi := fresh "Hi" in
  let out := fresh "out" in
  let e := fresh "e" in
  let P := fresh "P" in
  destruct (importable src) eqn:Hi;
  [ destruct (run_importable b src dst Hi) as [out ->]
  | destruct (run_not_importable b src dst Hi) as [e [out [P ->]]] ].

(** The rows in the file after a run on an existing source. *)
Lemma stored_after_run b src dst :
  dest_file (snd (convert_to_sqlite_with b (initial (Some src) dst))) =
    Some (Sqlite (Database built_schema
                    (if importable src then accepted_rows (tl src) else []))).
Proof. run_cases b src dst; reflexivity. Qed.

(** ** Sources of any size *)

Lemma bits_inj p q : bits p = bits q -> p = q.
Proof.
  revert q. induction p as [p IH|p IH|]; intros [q|q|]; simpl; intros H;
    try discriminate; try reflexivity; injection H as H; f_equal; now apply IH.
Qed.

Lemma numbered_readable l : forallb readable (map numbered l) = true.
Proof. induction l as [|k l IH]; [reflexivity | exact IH]. Qed.

Lemma numbered_rows l :
  accepted_rows (map numbered l) = map numbered_description l.
Proof.
  induction l as [|k l IH]; [reflexivity|].
  change (accepted_rows (map numbered (k :: l)))
    with (numbered_description k :: accepted_rows (map numbered l)).
  now rewrite IH.
Qed.

Lemma numbered_distinct l :
  NoDup l -> distinct_ids (map numbered_description l) = true.
Proof.
  intros Hl. apply distinct_ids_NoDup. rewrite map_map.
  apply Injective_map_NoDup; [|assumption].
  intros j k H. cbn [id numbered_description] in H.
  apply bits_inj in H. now apply SuccNat2Pos.inj.
Qed.

Lemma census_rows n :
  accepted_rows (census n) = map numbered_description (seq 0 (Z.to_nat n)).
Proof. apply numbered_rows. Qed.

Lemma census_len n : (0 <= n)%Z -> len (accepted_rows (census n)) = n.
Proof.
  intros Hn. rewrite census_rows. unfold len.
  rewrite length_map, length_seq. now apply Z2Nat.id.
Qed.

Lemma census_lines n : (0 <= n)%Z -> len (accepted_lines (census n)) = n.
Proof.
  intros Hn. unfold len.
  rewrite <- (accepted_rows_length (census n)) by apply numbered_readable.
  now apply census_len.
Qed.

Lemma census_importable n : importable (header :: census n) = true.
Proof.
  unfold header. cbn [importable]. unfold census at 1.
  rewrite numbered_readable, census_rows. apply numbered_distinct, seq_NoDup.
Qed.

Lemma census_succ n :
  (0 <= n)%Z -> census (n + 1) = census n ++ [numbered (Z.to_nat n)].
Proof.
  intros Hn. unfold census.
  replace (Z.to_nat (n + 1)) with (S (Z.to_nat n)) by lia.
  now rewrite seq_S, map_app.
Qed.

(** With the threshold at [n], the run on [interrupted n] flushes its one
    full batch and then fails: the batch is in the transaction and not in
    the file. *)
Lemma interrupted_run n dst :
  (0 < n)%Z ->
  exists out,
    convert_to_sqlite_with n (initial (Some (interrupted n)) dst) =
      (Raise ReadError,
       World (Some (interrupted n)) (Some (Sqlite (Database built_schema [])))
             out Closed (Connected (accepted_rows (census n)))).
Proof.
  intros Hn. rewrite convert_to_sqlite_with_source.
  assert (Hsplit : census n = census (n - 1) ++ [numbered (Z.to_nat (n - 1))]).
  { replace n with ((n - 1) + 1)%Z at 1 by lia. apply census_succ. lia. }
  assert (Hload : exists out,
            load n ((census (n - 1) ++ [numbered (Z.to_nat (n - 1))]) ++ [Fault])
                 0%Z [] (prepared (interrupted n)) =
              (Raise ReadError,
               World (Some (interrupted n)) (Some (Sqlite (Database built_schema [])))
                     out Opened (Connected (accepted_rows (census n))))).
  { assert (Hlen : len (accepted_rows (census (n - 1))) = (n - 1)%Z)
      by (apply census_len; lia).
    assert (Hfull : len (accepted_rows (census n)) = n) by (apply census_len; lia).
    assert (Hrows : accepted_rows (census n) =
                    accepted_rows (census (n - 1))
                    ++ accepted_rows [numbered (Z.to_nat (n - 1))])
      by (rewrite Hsplit at 1; apply accepted_rows_app).
    rewrite <- app_assoc, load_app.
    rewrite for_row_in_below;
      [| apply numbered_readable | cbn [app]; rewrite Hlen; lia].
    cbn [app].
    change (numbered (Z.to_nat (n - 1)) :: [Fault])
      with (Row [bits (Pos.of_succ_nat (Z.to_nat (n - 1))); "20250801"; "1";
                 "900000000000207008"; "138875005"; "en"; "900000000000013009";
                 "SNOMED CT Concept"; "900000000000448009"] :: [Fault]).
    rewrite load_Row, filter_row_readable by reflexivity.
    match goal with
    | |- context [accepted_rows [Row ?r]] =>
        change (Row r) with (numbered (Z.to_nat (n - 1)))
    end.
    rewrite <- Hrows.
    match goal with
    | |- context [flush_if_full n ?c _ _] => set (count1 := c)
    end.
    destruct (flush_if_full n count1 (accepted_rows (census n))
                (prepared (interrupted n))) as [r1 w1] eqn:Hflush.
    destruct (flush_if_full_cases n count1 _ (prepared (interrupted n))
                (Database built_schema []) [] r1 w1 eq_refl eq_refl Hflush)
      as [Hs [Hd [Hf Hcases]]].
    destruct Hcases as [[_ [_ Hlt]] | [[-> [Hc _]] | [_ [_ [_ Hclash]]]]].
    - lia.
    - rewrite load_Fault. exists (stdout w1).
      destruct w1 as [s1 d1 o1 f1 c1]. cbn in Hs, Hd, Hf, Hc. now subst.
    - cbn [descriptions app] in Hclash. rewrite census_rows in Hclash.
      pose proof (numbered_distinct _ (seq_NoDup (Z.to_nat n) 0)) as Hdist.
      unfold distinct_ids in Hdist. congruence. }
  rewrite <- Hsplit in Hload. destruct Hload as [out Hload]. exists out.
  unfold interrupted at 1, header. rewrite read_all_header. fold header.
  fold (interrupted n). now rewrite Hload.
Qed.

(** ** The scenarios, run *)

Example three_lines_run :
  convert_to_sqlite (initial (Some three_lines) (Some (Other "notes"))) =
    (Ok PyNone,
     World (Some three_lines)
           (Some (Sqlite (Database built_schema
              [Description "101" "138875005" "SNOMED CT Concept" 1;
               Description "103" "404684003" "Clinical finding" 1])))
           [Creating_SQLite_DB; Reading_SNOMED_file; Done_Imported 2]
           Closed Disconnected).
Proof. reflexivity. Qed.

Example twice_101_run :
  convert_to_sqlite (initial (Some twice_101) None) =
    (Raise IntegrityError,
     World (Some twice_101) (Some (Sqlite (Database built_schema [])))
           [Creating_SQLite_DB; Reading_SNOMED_file]
           Closed
           (Connected [Description "101" "138875005" "SNOMED CT Concept" 1])).
Proof. reflexivity. Qed.

Example cut_active_run :
  convert_to_sqlite (initial (Some cut_active) None) =
    (Raise IndexError,
     World (Some cut_active) (Some (Sqlite (Database built_schema [])))
           [Creating_SQLite_DB; Reading_SNOMED_file] Closed (Connected [])).
Proof. reflexivity. Qed.

Example cut_inactive_run :
  convert_to_sqlite (initial (Some cut_inactive) None) =
    (Ok PyNone,
     World (Some cut_inactive) (Some (Sqlite (Database built_schema [])))
           [Creating_SQLite_DB; Reading_SNOMED_file; Done_Imported 0]
           Closed Disconnected).
Proof. reflexivity. Qed.

(** ** The claims, and the run on the rows of the reader *)


(** On the rows of the reader: every row of the output table comes from a
    row of the reader, after the first, whose field at index 2 is '1',
    with id = field 0, conceptId = field 4, term = field 7 and active = 1;
    and when the run completes, those rows of the reader and the rows of
    the table correspond one to one, in order, in this way. *)
Lemma rows_persisted_fields (src : list item) (dst : option file) :
  (forall d,
     In d (stored (snd (convert_to_sqlite (initial (Some src) dst)))) ->
     exists r, In (Row r) (tl src) /\ nth_error r 2 = Some "1"
               /\ nth_error r 0 = Some (id d)
               /\ nth_error r 4 = Some (conceptId d)
               /\ nth_error r 7 = Some (term d)
               /\ active d = 1%Z)
  /\ (importable src = true ->
      Forall2 (fun it d => exists r, it = Row r /\ nth_error r 2 = Some "1"
                                     /\ projects_to r d)
              (accepted_lines (tl src))
              (stored (snd (convert_to_sqlite (initial (Some src) dst))))).
Proof.
  unfold convert_to_sqlite, stored. rewrite stored_after_run. cbn [descriptions].
  split.
  - intros d Hd. destruct (importable src); [|destruct Hd].
    destruct (accepted_rows_origin _ _ Hd) as [r [Hr [Hflag Hp]]].
    exists r. split; [assumption|]. split; [assumption | exact Hp].
  - intros Hi. rewrite Hi. destruct src as [|[h|] data]; try discriminate.
    simpl in Hi. apply andb_true_iff in Hi. now apply accepted_rows_pairing.
Qed.

(** C3, as stated, fails: the function hands no count back.  On the three
    line scenario, with two accepted records, it returns None. *)
Lemma returned_count_counterexample :
  fst (convert_to_sqlite (initial (Some three_lines) None)) = Ok PyNone
  /\ fst (convert_to_sqlite (initial (Some three_lines) None))
     <> Ok (PyInt (len (accepted_lines (tl three_lines)))).
Proof. split; [reflexivity | discriminate]. Qed.

(** C3, amended: when the import completes, the writes are committed, the
    connection and the file are closed, the total count of accepted
    records is printed in the last message, and the function returns
    None. *)
Theorem returned_value (src : list item) (dst : option file) :
  importable src = true ->
  exists out,
    convert_to_sqlite (initial (Some src) dst) =
      (Ok PyNone,
       World (Some src)
             (Some (Sqlite (Database built_schema (accepted_rows (tl src)))))
             (out ++ [Done_Imported (len (accepted_lines (tl src)))])
             Closed Disconnected).
Proof.
  intros Hi. destruct (run_importable BATCH_SIZE src dst Hi) as [out Hrun].
  exists out. unfold convert_to_sqlite. rewrite Hrun.
  replace (len (accepted_lines (tl src))) with (len (accepted_rows (tl src)));
    [reflexivity|].
  destruct src as [|[h|] data]; try discriminate.
  simpl in Hi. apply andb_true_iff in Hi. unfold len. cbn [tl].
  now rewrite (accepted_rows_length data (proj1 Hi)).
Qed.

Lemma returned_value_witness :
  exists out,
    convert_to_sqlite (initial (Some three_lines) None) =
      (Ok PyNone,
       World (Some three_lines)
             (Some (Sqlite (Database built_schema (accepted_rows (tl three_lines)))))
             (out ++ [Done_Imported (len (accepted_lines (tl three_lines)))])
             Closed Disconnected).
Proof. apply (returned_value three_lines None). reflexivity. Defined.

(** C4: when the source path does not exist, the function prints the
    error and returns normally; what lies at the destination path, if
    anything, is left exactly as it was, no file is opened and no
    connection is made. *)
Theorem missing_source (dst : option file) :
  convert_to_sqlite (initial None dst) =
    (Ok PyNone,
     World None dst [Error_Source_file_not_found] Unopened NoConnection).
Proof. reflexivity. Qed.


(** C6: for any two positive thresholds the file left at the destination
    is the same; on an importable source it holds exactly the accepted
    rows, the last partial batch included; and with the threshold at
    10,000 a source with 25,001 qualifying rows leaves 25,001 rows. *)
Theorem batching_transparent (b1 b2 : Z) (src : list item) (dst : option file) :
  (0 < b1)%Z -> (0 < b2)%Z ->
  dest_file (snd (convert_to_sqlite_with b1 (initial (Some src) dst)))
  = dest_file (snd (convert_to_sqlite_with b2 (initial (Some src) dst)))
  /\ (importable src = true ->
      stored (snd (convert_to_sqlite_with b1 (initial (Some src) dst)))
      = accepted_rows (tl src))
  /\ (importable src = true ->
      len (accepted_lines (tl src)) = 25001%Z ->
      len (stored (snd (convert_to_sqlite_with 10000 (initial (Some src) dst))))
      = 25001%Z).
Proof.
  intros _ _. unfold stored. rewrite !stored_after_run. split; [reflexivity|].
  split; intros Hi; rewrite Hi; [reflexivity|].
  intros Hn. cbn [descriptions]. rewrite <- Hn. unfold len. f_equal.
  destruct src as [|[h|] data]; try discriminate.
  simpl in Hi. apply andb_true_iff in Hi. now apply accepted_rows_length.
Qed.

Lemma batching_transparent_witness :
  len (stored (snd (convert_to_sqlite_with 10000
                      (initial (Some (header :: census 25001)) None))))
  = 25001%Z.
Proof.
  apply (proj2 (proj2 (batching_transparent 10000 1 (header :: census 25001) None
                         eq_refl eq_refl))).
  - apply census_importable.
  - apply census_lines. discriminate.
Defined.

(** C7: on an existing source the file left at the destination does not
    depend on what lay there before; a second run on what the first run
    left gives the same file again; and over an unrelated file the
    destination afterwards holds the schema and the accepted rows (no row
    when the run fails), nothing else. *)
Theorem rebuilt_from_scratch (src : list item) (dst dst' : option file) :
  dest_file (snd (convert_to_sqlite (initial (Some src) dst)))
  = dest_file (snd (convert_to_sqlite (initial (Some src) dst')))
  /\ dest_file
       (snd (convert_to_sqlite
               (initial
                  (source_file (snd (convert_to_sqlite (initial (Some src) dst))))
                  (dest_file (snd (convert_to_sqlite (initial (Some src) dst)))))))
     = dest_file (snd (convert_to_sqlite (initial (Some src) dst)))
  /\ (forall content,
        dest_file (snd (convert_to_sqlite
                          (initial (Some src) (Some (Other content)))))
        = Some (Sqlite (Database built_schema
                          (if importable src then accepted_rows (tl src) else [])))).
Proof.
  unfold convert_to_sqlite. split; [now rewrite !stored_after_run|].
  split; [|intros content; apply stored_after_run].
  assert (Hs : source_file (snd (convert_to_sqlite_with BATCH_SIZE
                                   (initial (Some src) dst))) = Some src).
  { destruct (convert_to_sqlite_with BATCH_SIZE (initial (Some src) dst))
      as [r w] eqn:Hrun.
    now destruct (convert_to_sqlite_with_spec _ _ _ _ _ Hrun) as [Hs _]. }
  rewrite Hs. now rewrite !stored_after_run.
Qed.

(** C8, as stated, fails: a batch flushed before the failure is not
    committed.  On a header, 10,000 active lines and then a read failure,
    the full batch of 10,000 rows is inserted by line 60, the run ends in
    the read error before line 69, and the 10,000 rows are in the open
    transaction while the table in the file has no row. *)
Lemma flushed_batch_counterexample :
  exists out,
    convert_to_sqlite (initial (Some (interrupted 10000)) None) =
      (Raise ReadError,
       World (Some (interrupted 10000)) (Some (Sqlite (Database built_schema [])))
             out Closed (Connected (accepted_rows (census 10000))))
    /\ len (accepted_rows (census 10000)) = 10000%Z.
Proof.
  destruct (interrupted_run 10000 None eq_refl) as [out Hrun].
  exists out. split; [|apply census_len; discriminate].
  unfold convert_to_sqlite, BATCH_SIZE. rewrite Hrun. reflexivity.
Qed.

(** C8, amended: a run that ends in an exception, whatever the threshold,
    leaves at the destination a database with the schema and no row; what
    the flushes before the failure inserted is in the transaction of the
    connection, which is still open and was never committed. *)
Theorem failed_run_commits_nothing (b : Z) (src : list item) (dst : option file)
    (e : exn) :
  fst (convert_to_sqlite_with b (initial (Some src) dst)) = Raise e ->
  dest_file (snd (convert_to_sqlite_with b (initial (Some src) dst)))
  = Some (Sqlite (Database built_schema []))
  /\ exists P, conn (snd (convert_to_sqlite_with b (initial (Some src) dst)))
               = Connected P.
Proof.
  run_cases b src dst; [discriminate|].
  intros _. split; [reflexivity | now eexists].
Qed.

Lemma failed_run_commits_nothing_witness :
  dest_file (snd (convert_to_sqlite_with 1 (initial (Some twice_101) None)))
  = Some (Sqlite (Database built_schema []))
  /\ exists P, conn (snd (convert_to_sqlite_with 1 (initial (Some twice_101) None)))
               = Connected P.
Proof.
  apply (failed_run_commits_nothing 1 twice_101 None IntegrityError). reflexivity.
Defined.

(** What the function does with the two resources on each way out: the
    file object is never left open; the connection has not been made on
    the early return and has been closed when the loop and lines 66-70
    ran to their end; when an exception leaves the function, line 70 has
    not run and the connection is open. *)
Lemma release_on_exit (src : option (list item)) (dst : option file) :
  f (snd (convert_to_sqlite (initial src dst))) <> Opened
  /\ match fst (convert_to_sqlite (initial src dst)) with
     | Ok _ =>
         (src = None /\ conn (snd (convert_to_sqlite (initial src dst))) = NoConnection)
         \/ conn (snd (convert_to_sqlite (initial src dst))) = Disconnected
     | Raise _ =>
         exists P, conn (snd (convert_to_sqlite (initial src dst))) = Connected P
     end.
Proof.
  unfold convert_to_sqlite. destruct src as [src|].
  - run_cases BATCH_SIZE src dst; (split; [discriminate|]);
      [now right | now eexists].
  - rewrite convert_to_sqlite_with_no_source. split; [discriminate | now left].
Qed.

(** C10: on a source file with no line at all, [next(reader)] raises
    StopIteration and the run ends there, with no completion message; by
    then whatever lay at the destination path has been replaced by a new
    database that holds the schema and no row. *)
Theorem empty_source (dst : option file) :
  convert_to_sqlite (initial (Some []) dst) =
    (Raise StopIteration,
     World (Some []) (Some (Sqlite (Database built_schema [])))
           [Creating_SQLite_DB; Reading_SNOMED_file] Closed (Connected [])).
Proof. destruct dst; reflexivity. Qed.

(** ** The loop, one turn after the other *)

Lemma accepted_rows_one it :
  accepted_rows [it] = [] \/ exists d, accepted_rows [it] = [d].
Proof.
  destruct it as [r|]; cbn [accepted_rows]; [|now left].
  destruct (accepted r); [|now left].
  destruct (projection r) as [d|]; [right; now exists d | now left].
Qed.

Lemma counts_after_S c m :
  counts_after c (S m) = (c + 1)%Z :: counts_after (c + 1) m.
Proof.
  unfold counts_after. cbn [seq map]. f_equal.
  rewrite <- seq_shift, map_map. apply map_ext. intros i. lia.
Qed.

Lemma progress_notices_S b c m :
  progress_notices b c (S m) =
    (if noticed b (c + 1) then [Processed_rows (c + 1)] else [])
    ++ progress_notices b (c + 1) m.
Proof.
  unfold progress_notices. rewrite counts_after_S. cbn [filter].
  now destruct (noticed b (c + 1)).
Qed.

(** A flush that succeeds, to the letter. *)
Lemma flush_if_full_Ok b count batch w db P batch' w' :
  dest_file w = Some (Sqlite db) -> conn w = Connected P ->
  flush_if_full b count batch w = (Ok batch', w') ->
  ((len batch < b)%Z /\ batch' = batch /\ w' = w)
  \/ ((b <= len batch)%Z /\ batch' = []
      /\ fresh_all (descriptions db ++ P) batch = true
      /\ w' = set_stdout
                (stdout w ++ (if (count mod 100000 =? 0)%Z
                              then [Processed_rows count] else []))
                (set_conn (Connected (P ++ batch)) w)).
Proof.
  intros Hd Hc. unfold flush_if_full.
  destruct (b <=? len batch)%Z eqn:Hb.
  - apply Z.leb_le in Hb. unfold bind.
    rewrite (executemany_connected w db P batch Hd Hc).
    destruct (fresh_all (descriptions db ++ P) batch) eqn:Hf.
    + rewrite (insert_all_fresh _ _ _ Hf). cbn [fst snd].
      destruct (count mod 100000 =? 0)%Z; intros [= <- <-]; right;
        repeat split; try assumption.
      unfold set_stdout, set_conn, ret. cbn. now rewrite app_nil_r.
    + destruct (insert_all_clash _ _ _ Hf) as [P' ->]. discriminate.
  - apply Z.leb_gt in Hb. intros [= <- <-]. now left.
Qed.

Section Trace.

(** A positive threshold. *)
Variable b : Z.
Hypothesis b_positive : (0 < b)%Z.

Lemma mod_succ_below c : (c mod b + 1 < b)%Z -> ((c + 1) mod b = c mod b + 1)%Z.
Proof.
  intros H. pose proof (Z.mod_pos_bound c b b_positive) as Hm.
  pose proof (Z.div_mod c b ltac:(lia)) as Hc.
  symmetry. apply (Z.mod_unique_pos (c + 1) b (c / b)); lia.
Qed.

Lemma mod_succ_full c : (c mod b + 1 = b)%Z -> ((c + 1) mod b = 0)%Z.
Proof.
  intros H. pose proof (Z.div_mod c b ltac:(lia)) as Hc.
  symmetry. apply (Z.mod_unique_pos (c + 1) b (c / b + 1)); lia.
Qed.

(** The loop from a state in which [batch] holds [count mod b] rows, as it
    does at the start and after every turn: when it ends normally, [count]
    has advanced by the number of accepted rows, these rows are in the
    transaction and in [batch], in order, [batch] again holds [count mod b]
    rows, and the console has got the progress lines and nothing else. *)
Lemma for_row_in_trace reader : forall count batch w db P count' batch' w',
  dest_file w = Some (Sqlite db) -> conn w = Connected P ->
  len batch = (count mod b)%Z ->
  for_row_in b reader count batch w = (Ok (count', batch'), w') ->
  count' = (count + len (accepted_rows reader))%Z
  /\ len batch' = (count' mod b)%Z
  /\ (exists P', conn w' = Connected P'
                 /\ P' ++ batch' = P ++ batch ++ accepted_rows reader)
  /\ stdout w' = stdout w
                 ++ progress_notices b count (List.length (accepted_rows reader))
  /\ source_file w' = source_file w /\ dest_file w' = dest_file w /\ f w' = f w.
Proof.
  induction reader as [|it reader IH];
    intros count batch w db P count' batch' w' Hd Hc Hinv Hrun.
  - injection Hrun as <- <- <-. cbn [accepted_rows List.length].
    unfold progress_notices, counts_after, len. cbn.
    rewrite Z.add_0_r, !app_nil_r. repeat split; try assumption. now exists P.
  - destruct it as [r|]; [|discriminate].
    rewrite for_row_in_Row in Hrun.
    destruct (readable (Row r)) eqn:Hr;
      [|rewrite (filter_row_short _ _ _ Hr) in Hrun; discriminate].
    rewrite (filter_row_readable _ _ _ Hr) in Hrun.
    rewrite (accepted_rows_cons (Row r) reader), length_app, len_app.
    pose proof (Z.mod_pos_bound count b b_positive) as Hbound.
    destruct (flush_if_full b (count + len (accepted_rows [Row r]))
                (batch ++ accepted_rows [Row r]) w) as [[batch2|e] w2] eqn:Hflush;
      [|discriminate].
    destruct (flush_if_full_Ok _ _ _ _ _ _ _ _ Hd Hc Hflush)
      as [[Hlt [-> ->]] | [Hle [-> [Hfresh ->]]]].
    + (* no flush *)
      rewrite len_app in Hlt.
      assert (Hinv1 : len (batch ++ accepted_rows [Row r])
                      = ((count + len (accepted_rows [Row r])) mod b)%Z).
      { rewrite len_app.
        destruct (accepted_rows_one (Row r)) as [Hone | [d Hone]];
          rewrite Hone in *; unfold len in *; cbn [List.length] in *.
        - rewrite !Z.add_0_r. exact Hinv.
        - change (Z.of_nat 1) with 1%Z in *. rewrite mod_succ_below; lia. }
      destruct (IH _ _ _ _ _ _ _ _ Hd Hc Hinv1 Hrun)
        as [Hcount [Hmod [[P' [Hc' Hrows]] [Hout [Hs [Hd' Hf]]]]]].
      repeat split; try assumption.
      * lia.
      * exists P'. split; [assumption|]. now rewrite Hrows, <- !app_assoc.
      * rewrite Hout. f_equal.
        destruct (accepted_rows_one (Row r)) as [-> | [d Hone]].
        -- cbn [List.length Nat.add]. unfold len. cbn [List.length].
           now rewrite Z.add_0_r.
        -- rewrite Hone in *. cbn [List.length Nat.add].
           rewrite progress_notices_S. unfold len in *. cbn [List.length] in *.
           change (Z.of_nat 1) with 1%Z in *.
           replace (noticed b (count + 1)) with false; [reflexivity|].
           unfold noticed. rewrite mod_succ_below by lia.
           replace (count mod b + 1 =? 0)%Z with false; [reflexivity|].
           symmetry. apply Z.eqb_neq. lia.
    + (* flush *)
      rewrite len_app in Hle.
      destruct (accepted_rows_one (Row r)) as [Hone | [d Hone]];
        rewrite Hone in *; unfold len in Hle, Hinv; cbn [List.length] in Hle;
        [lia|].
      change (Z.of_nat 1) with 1%Z in *.
      assert (Hfull : ((count + 1) mod b = 0)%Z) by (apply mod_succ_full; lia).
      change (len [d]) with 1%Z in *.
      match type of Hrun with
      | for_row_in _ _ _ _ ?w2 = _ =>
          assert (Hd2 : dest_file w2 = Some (Sqlite db)) by exact Hd;
          assert (Hc2 : conn w2 = Connected (P ++ batch ++ [d])) by reflexivity
      end.
      assert (Hinv2 : len (@nil description) = ((count + 1) mod b)%Z)
        by (rewrite Hfull; reflexivity).
      destruct (IH _ _ _ _ _ _ _ _ Hd2 Hc2 Hinv2 Hrun)
        as [Hcount [Hmod [[P' [Hc' Hrows]] [Hout [Hs [Hd' Hf]]]]]].
      repeat split; try assumption.
      * lia.
      * exists P'. split; [assumption|].
        rewrite Hrows. cbn [app]. now rewrite <- !app_assoc.
      * rewrite Hout. cbn [stdout set_stdout List.length Nat.add].
        rewrite progress_notices_S, <- app_assoc. do 2 f_equal.
        unfold noticed. rewrite Hfull. reflexivity.
Qed.

End Trace.

(** ** The console under the loop *)

Lemma executemany_console batch w r w' :
  cursor_executemany batch w = (r, w') -> stdout w' = stdout w.
Proof.
  unfold cursor_executemany.
  destruct (connected_db w) as [[db P]|e]; [|now intros [= <- <-]].
  destruct (insert_all (descriptions db) P batch). now intros [= <- <-].
Qed.



(** ** Which exception *)




(** ** The run, stage by stage *)

Lemma run_via_load b h data dst :
  convert_to_sqlite_with b (initial (Some (Row h :: data)) dst) =
    match load b data 0%Z [] (prepared (Row h :: data)) with
    | (Ok count, w) => finish count (set_f Closed w)
    | (Raise e, w) => (Raise e, set_f Closed w)
    end.
Proof. now rewrite convert_to_sqlite_with_source, read_all_header. Qed.

Lemma load_via_loop b reader count batch w :
  load b reader count batch w =
    match for_row_in b reader count batch w with
    | (Ok (count', batch'), w') => load b [] count' batch' w'
    | (Raise e, w') => (Raise e, w')
    end.
Proof. now rewrite <- (app_nil_r reader) at 1; rewrite load_app. Qed.

Lemma finish_connected count w db P :
  dest_file w = Some (Sqlite db) -> conn w = Connected P ->
  finish count w =
    (Ok PyNone,
     World (source_file w)
           (Some (Sqlite (Database (schema db) (descriptions db ++ P))))
           (stdout w ++ [Done_Imported count]) (f w) Disconnected).
Proof.
  intros Hd Hc. destruct w as [s d o h c]. cbn in Hd, Hc. subst. reflexivity.
Qed.

(** The console of a run that completes, for a positive threshold. *)
Lemma run_console b src dst :
  (0 < b)%Z -> importable src = true ->
  stdout (snd (convert_to_sqlite_with b (initial (Some src) dst))) =
    [Creating_SQLite_DB; Reading_SNOMED_file]
    ++ progress_notices b 0 (List.length (accepted_lines (tl src)))
    ++ [Done_Imported (len (accepted_lines (tl src)))].
Proof.
  intros Hb Hi. destruct (run_importable b src dst Hi) as [out Hrun].
  destruct src as [|[h|] data]; try discriminate.
  assert (Hread : forallb readable data = true)
    by (cbn [importable] in Hi; now apply andb_true_iff in Hi).
  cbn [tl]. unfold len. rewrite <- (accepted_rows_length data Hread).
  rewrite run_via_load in Hrun |- *. rewrite load_via_loop in Hrun |- *.
  destruct (for_row_in b data 0%Z [] (prepared (Row h :: data)))
    as [[[count1 batch1]|e] w1] eqn:Hloop; [|discriminate].
  assert (Hinv : len (@nil description) = (0 mod b)%Z)
    by (now rewrite Z.mod_0_l by lia).
  destruct (for_row_in_trace b Hb data 0%Z [] (prepared (Row h :: data))
              (Database built_schema []) [] count1 batch1 w1
              eq_refl eq_refl Hinv Hloop)
    as [Hcount [_ [[P' [Hc' _]] [Hout [_ [Hd' _]]]]]].
  cbn [dest_file prepared] in Hd'. rewrite load_nil in Hrun |- *.
  assert (Hfinish : forall w2, dest_file w2 = dest_file w1 ->
            (exists P2, conn w2 = Connected P2) -> stdout w2 = stdout w1 ->
            stdout (snd (finish count1 (set_f Closed w2)))
            = [Creating_SQLite_DB; Reading_SNOMED_file]
              ++ progress_notices b 0 (List.length (accepted_rows data))
              ++ [Done_Imported (Z.of_nat (List.length (accepted_rows data)))]).
  { intros w2 Hd2 [P2 Hc2] Ho2.
    rewrite (finish_connected count1 (set_f Closed w2) (Database built_schema []) P2);
      [| cbn; congruence | exact Hc2].
    cbn [snd stdout set_f]. rewrite Ho2, Hout, Hcount. cbn [stdout prepared].
    unfold len. now rewrite <- app_assoc. }
  destruct batch1 as [|d batch1].
  - apply Hfinish; [reflexivity | now exists P' | reflexivity].
  - destruct (cursor_executemany (d :: batch1) w1) as [[[]|e] w2] eqn:Hex;
      [|discriminate].
    pose proof (executemany_console _ _ _ _ Hex) as Ho2.
    rewrite (executemany_connected w1 _ P' _ Hd' Hc') in Hex.
    injection Hex as _ <-. apply Hfinish; [reflexivity | | exact Ho2].
    now eexists.
Qed.


Lemma counts_after_In c m x :
  In x (counts_after c m) <-> (c < x <= c + Z.of_nat m)%Z.
Proof.
  unfold counts_after. rewrite in_map_iff. split.
  - intros [i [<- Hi]]. apply in_seq in Hi. lia.
  - intros Hx. exists (Z.to_nat (x - c)). split; [lia|]. apply in_seq. lia.
Qed.

Lemma noticed_BATCH_SIZE c : noticed BATCH_SIZE c = (c mod 100000 =? 0)%Z.
Proof.
  unfold noticed, BATCH_SIZE. destruct (Z.eqb_spec (c mod 100000) 0) as [H|H].
  - rewrite andb_true_r. apply Z.eqb_eq.
    apply Z.mod_divide; [discriminate|].
    apply Z.mod_divide in H; [|discriminate].
    destruct H as [q ->]. exists (q * 10)%Z. lia.
  - apply andb_false_r.
Qed.

Lemma accepted_lines_rows data :
  accepted_rows (accepted_lines data) = accepted_rows data.
Proof.
  unfold accepted_lines.
  induction data as [|[r|] data IH]; cbn [filter accepted_item accepted_rows];
    [reflexivity | | exact IH].
  destruct (accepted r) eqn:Ha; [|exact IH].
  cbn [accepted_rows]. rewrite Ha. now rewrite IH.
Qed.

Lemma accepted_lines_readable data :
  forallb readable data = true -> forallb readable (accepted_lines data) = true.
Proof.
  rewrite !forallb_forall. intros H it Hit.
  apply filter_In in Hit. now apply H.
Qed.

Lemma accepted_lines_again data :
  accepted_lines (accepted_lines data) = accepted_lines data.
Proof.
  unfold accepted_lines. induction data as [|it data IH]; [reflexivity|].
  cbn [filter]. destruct (accepted_item it) eqn:Hit; [|exact IH].
  cbn [filter]. now rewrite Hit, IH.
Qed.

(** ** Further properties of the script *)

(** On the rows of the reader: the call returns normally in exactly two
    cases: there is no file at the source path, or the reader gives a
    first row, every turn after it gives a row with at least 3 fields,
    and at least 8 when the field at index 2 is '1', and no id occurs
    twice among the rows to import. *)
Lemma rows_complete_exactly_when (src : option (list item)) (dst : option file) :
  fst (convert_to_sqlite (initial src dst)) = Ok PyNone <->
  src = None
  \/ exists h data,
       src = Some (Row h :: data)
       /\ Forall (fun it => exists r, it = Row r /\ (3 <= List.length r)%nat
                    /\ (nth_error r 2 = Some "1" -> (8 <= List.length r)%nat)) data
       /\ NoDup (map id (accepted_rows data)).
Proof.
  unfold convert_to_sqlite. destruct src as [src|].
  - run_cases BATCH_SIZE src dst; cbn [fst]; split.
    + intros _. right. apply importable_iff in Hi.
      destruct Hi as [h [data [-> H]]]. now exists h, data.
    + reflexivity.
    + discriminate.
    + intros [[=] | [h [data [[= ->] H]]]].
      assert (importable (Row h :: data) = true)
        by (apply importable_iff; now exists h, data).
      congruence.
  - split; [now left | reflexivity].
Qed.


(** X3: after a run on an existing source, completed or not, no id occurs
    twice in table descriptions. *)
Theorem stored_ids_distinct (src : list item) (dst : option file) :
  NoDup (map id (stored (snd (convert_to_sqlite (initial (Some src) dst))))).
Proof.
  unfold convert_to_sqlite, stored. rewrite stored_after_run. cbn [descriptions].
  destruct (importable src) eqn:Hi; [|constructor].
  destruct src as [|[h|] data]; try discriminate.
  cbn [importable tl] in *. apply andb_true_iff in Hi.
  now apply distinct_ids_NoDup.
Qed.

(** X4: the console of a run that completes is, in this order, the two
    opening lines, one progress line for each multiple of 100,000 up to
    the number of accepted lines, and the completion line with that
    number. *)
Theorem console_of_completed_run (src : list item) (dst : option file) :
  importable src = true ->
  stdout (snd (convert_to_sqlite (initial (Some src) dst))) =
    [Creating_SQLite_DB; Reading_SNOMED_file]
    ++ map Processed_rows
         (filter (fun c => (c mod 100000 =? 0)%Z)
                 (counts_after 0 (List.length (accepted_lines (tl src)))))
    ++ [Done_Imported (len (accepted_lines (tl src)))].
Proof.
  intros Hi. unfold convert_to_sqlite.
  rewrite (run_console BATCH_SIZE src dst eq_refl Hi). unfold progress_notices.
  do 3 f_equal. apply filter_ext. exact noticed_BATCH_SIZE.
Qed.

Lemma console_of_completed_run_witness :
  stdout (snd (convert_to_sqlite (initial (Some three_lines) None))) =
    [Creating_SQLite_DB; Reading_SNOMED_file]
    ++ map Processed_rows
         (filter (fun c => (c mod 100000 =? 0)%Z)
                 (counts_after 0 (List.length (accepted_lines (tl three_lines)))))
    ++ [Done_Imported (len (accepted_lines (tl three_lines)))].
Proof. apply (console_of_completed_run three_lines None). reflexivity. Defined.

(** X5: with any positive threshold, a run that completes prints the
    progress line for a count exactly when the count is positive, at most
    the number of accepted lines, a multiple of the threshold and a
    multiple of 100,000: the progress lines, unlike the rows written,
    depend on the threshold. *)
Theorem progress_line_printed (b : Z) (src : list item) (dst : option file)
    (c : Z) :
  (0 < b)%Z -> importable src = true ->
  In (Processed_rows c)
     (stdout (snd (convert_to_sqlite_with b (initial (Some src) dst))))
  <-> (0 < c <= len (accepted_lines (tl src)))%Z
      /\ (c mod b = 0)%Z /\ (c mod 100000 = 0)%Z.
Proof.
  intros Hb Hi. rewrite (run_console b src dst Hb Hi). unfold progress_notices.
  cbn [app In]. rewrite in_app_iff, in_map_iff. cbn [In]. split.
  - intros [[=] | [[=] | [[x [[= ->] Hx]] | [[=] | []]]]].
    apply filter_In in Hx. destruct Hx as [Hx Hn].
    apply counts_after_In in Hx. unfold noticed in Hn.
    apply andb_true_iff in Hn. rewrite !Z.eqb_eq in Hn. unfold len. lia.
  - intros [Hc [Hmb Hm]]. right; right; left. exists c. split; [reflexivity|].
    apply filter_In. split; [apply counts_after_In; unfold len in Hc; lia|].
    unfold noticed. now rewrite Hmb, Hm.
Qed.

Lemma progress_line_printed_witness :
  In (Processed_rows 100000)
     (stdout (snd (convert_to_sqlite_with 50000
                     (initial (Some (header :: census 100000)) None)))).
Proof.
  apply (proj2 (progress_line_printed 50000 (header :: census 100000) None 100000
                  eq_refl (census_importable 100000))).
  change (tl (header :: census 100000)) with (census 100000).
  rewrite census_lines by discriminate. repeat split; discriminate.
Defined.


(** X7: the function never changes what lies at the source path. *)
Theorem source_untouched (src : option (list item)) (dst : option file) :
  source_file (snd (convert_to_sqlite (initial src dst))) = src.
Proof.
  unfold convert_to_sqlite. destruct src as [src|]; [|reflexivity].
  run_cases BATCH_SIZE src dst; reflexivity.
Qed.

(** X8: the loop, started as the script starts it, with a positive
    threshold: when it ends normally, [count] is the number of accepted
    rows read, [batch] holds fewer rows than the threshold, namely
    [count mod threshold], the transaction holds a whole number of
    batches, and the transaction followed by [batch] is the list of the
    accepted rows in the order read, none lost and none twice. *)
Theorem loop_exit_state (b : Z) (reader : list item) (w : world) (db : database)
    (count : Z) (batch : list description) (w' : world) :
  (0 < b)%Z ->
  dest_file w = Some (Sqlite db) -> conn w = Connected [] ->
  for_row_in b reader 0%Z [] w = (Ok (count, batch), w') ->
  count = len (accepted_rows reader)
  /\ (len batch < b)%Z /\ len batch = (count mod b)%Z
  /\ exists P, conn w' = Connected P
               /\ P ++ batch = accepted_rows reader
               /\ len P = (b * (count / b))%Z.
Proof.
  intros Hb Hd Hc Hloop.
  assert (Hinv : len (@nil description) = (0 mod b)%Z)
    by (now rewrite Z.mod_0_l by lia).
  destruct (for_row_in_trace b Hb reader _ _ _ _ _ _ _ _ Hd Hc Hinv Hloop)
    as [Hcount [Hmod [[P [Hc' Hrows]] _]]].
  cbn [app] in Hrows. rewrite Z.add_0_l in Hcount.
  pose proof (Z.mod_pos_bound count b Hb) as Hbound.
  repeat split; try assumption; try lia.
  exists P. repeat split; try assumption.
  pose proof (f_equal len Hrows) as Hlen. rewrite len_app in Hlen.
  pose proof (Z.div_mod count b ltac:(lia)). lia.
Qed.

Lemma loop_exit_state_witness :
  exists P, conn (snd (for_row_in 1 (tl three_lines) 0%Z [] (prepared three_lines)))
            = Connected P
            /\ P ++ [] = accepted_rows (tl three_lines)
            /\ len P = (1 * (2 / 1))%Z.
Proof.
  apply (loop_exit_state 1 (tl three_lines) (prepared three_lines)
           (Database built_schema []) 2 []
           (snd (for_row_in 1 (tl three_lines) 0%Z [] (prepared three_lines)))
           eq_refl eq_refl eq_refl eq_refl).
Defined.

(** On the rows of the reader: on an importable source the run on the
    first row and the accepted rows alone returns as well, leaves the same
    file at the destination and prints the same lines. *)
Lemma prefiltered_rows (h : row) (data : list item) (dst : option file) :
  importable (Row h :: data) = true ->
  importable (Row h :: accepted_lines data) = true
  /\ fst (convert_to_sqlite (initial (Some (Row h :: accepted_lines data)) dst))
     = fst (convert_to_sqlite (initial (Some (Row h :: data)) dst))
  /\ dest_file (snd (convert_to_sqlite
                       (initial (Some (Row h :: accepted_lines data)) dst)))
     = dest_file (snd (convert_to_sqlite (initial (Some (Row h :: data)) dst)))
  /\ stdout (snd (convert_to_sqlite
                    (initial (Some (Row h :: accepted_lines data)) dst)))
     = stdout (snd (convert_to_sqlite (initial (Some (Row h :: data)) dst))).
Proof.
  intros Hi.
  assert (Hi' : importable (Row h :: accepted_lines data) = true).
  { cbn [importable] in *. apply andb_true_iff in Hi. destruct Hi as [Hr Hn].
    now rewrite accepted_lines_rows, Hn, (accepted_lines_readable _ Hr). }
  split; [exact Hi'|]. unfold convert_to_sqlite.
  rewrite !stored_after_run, Hi, Hi'.
  rewrite (run_console BATCH_SIZE _ dst eq_refl Hi).
  rewrite (run_console BATCH_SIZE _ dst eq_refl Hi').
  cbn [tl]. rewrite accepted_lines_rows, accepted_lines_again.
  destruct (run_importable BATCH_SIZE _ dst Hi) as [out ->].
  destruct (run_importable BATCH_SIZE _ dst Hi') as [out' ->].
  now repeat split.
Qed.

(** X10: run as a script, the file ends with status 0 when there is no
    source file and when the import completes, and with status 1 on every
    other source: a missing source is not told apart from a success by
    the status. *)
Theorem exit_status (src : option (list item)) (dst : option file) :
  fst (main (initial src dst)) =
    match src with
    | None => 0%Z
    | Some s => if importable s then 0%Z else 1%Z
    end.
Proof.
  unfold main, convert_to_sqlite. destruct src as [s|]; [|reflexivity].
  run_cases BATCH_SIZE s dst; reflexivity.
Qed.

(** ** The reader on text without double quotes *)

Lemma append_nil_r (s : string) : (s ++ EmptyString)%string = s.
Proof. induction s as [|c s IH]; [reflexivity | cbn; now rewrite IH]. Qed.

Lemma append_assoc (a b c : string) :
  ((a ++ b) ++ c)%string = (a ++ (b ++ c))%string.
Proof. induction a as [|x a IH]; [reflexivity | cbn; now rewrite IH]. Qed.

Lemma glue_split_tab_cons cur c body :
  Ascii.eqb c TAB = false ->
  glue cur (split_tab (String c body))
  = glue (cur ++ String c EmptyString) (split_tab body).
Proof.
  intros Hc. cbn [split_tab]. rewrite Hc.
  destruct (split_tab body) as [|fld flds]; cbn [glue].
  - reflexivity.
  - rewrite append_assoc. reflexivity.
Qed.

Lemma split_tab_glue l : glue EmptyString (split_tab l) = split_tab l.
Proof.
  destruct l as [|c l]; cbn; [reflexivity|].
  destruct (Ascii.eqb c TAB); [reflexivity|]. now destruct (split_tab l).
Qed.

(** Outside quoted fields the parser cuts at tabs. *)
Lemma process_line_plain l : forall p,
  state p = START_FIELD \/ state p = IN_FIELD ->
  plain l = true ->
  process_line p l =
    Ok (Reader START_RECORD (fields p ++ glue (field p) (split_tab (chomp l)))
               EmptyString).
Proof.
  induction l as [|c l IH]; intros p Hstate Hplain.
  - cbn. unfold parse_process_char.
    destruct Hstate as [-> | ->]; cbn; now rewrite append_nil_r.
  - cbn [plain] in Hplain. cbn [process_line chomp].
    destruct (Ascii.eqb c LF) eqn:Hlf.
    + apply Ascii.eqb_eq in Hlf. subst c. apply String.eqb_eq in Hplain. subst l.
      unfold parse_process_char. destruct Hstate as [-> | ->]; cbn;
        now rewrite append_nil_r.
    + apply andb_true_iff in Hplain. destruct Hplain as [Hc Hrest].
      apply andb_true_iff in Hc. destruct Hc as [Hq Hcr].
      apply negb_true_iff in Hq, Hcr.
      assert (Hnl : is_newline c = false) by (unfold is_newline; now rewrite Hlf, Hcr).
      destruct (Ascii.eqb c TAB) eqn:Htab.
      * assert (Hstep : parse_process_char p (Some c)
                        = Ok (parse_save_field p START_FIELD)).
        { unfold parse_process_char, start_field.
          destruct Hstate as [-> | ->]; now rewrite Hnl, ?Hq, Htab. }
        rewrite Hstep, IH; [|now left | assumption].
        cbn [fields field parse_save_field split_tab]. rewrite Htab.
        cbn [glue]. now rewrite split_tab_glue, append_nil_r, <- app_assoc.
      * assert (Hstep : parse_process_char p (Some c)
                        = Ok (parse_add_char p c IN_FIELD)).
        { unfold parse_process_char, start_field.
          destruct Hstate as [-> | ->]; now rewrite Hnl, ?Hq, Htab. }
        rewrite Hstep, IH; [|now right | assumption].
        cbn [fields field parse_add_char]. now rewrite glue_split_tab_cons.
Qed.

(** A plain line read from the start of a record gives its tab-separated
    fields and leaves the parser at the start of the next record. *)
Lemma process_line_plain_record l :
  plain l = true ->
  process_line parse_reset l =
    Ok (Reader START_RECORD (tab_fields (chomp l)) EmptyString).
Proof.
  intros Hplain. destruct l as [|c l]; [reflexivity|].
  cbn [plain] in Hplain. destruct (Ascii.eqb c LF) eqn:Hlf.
  - apply Ascii.eqb_eq in Hlf. subst c. apply String.eqb_eq in Hplain. now subst l.
  - assert (Hsame : process_line parse_reset (String c l)
                    = process_line (Reader START_FIELD [] EmptyString) (String c l)).
    { cbn [process_line].
      assert (Hfirst : parse_process_char parse_reset (Some c)
                       = parse_process_char (Reader START_FIELD [] EmptyString) (Some c)).
      { unfold parse_process_char. cbn [state parse_reset].
        apply andb_true_iff in Hplain. destruct Hplain as [Hc _].
        apply andb_true_iff in Hc. destruct Hc as [_ Hcr]. apply negb_true_iff in Hcr.
        unfold is_newline. now rewrite Hlf, Hcr. }
      now rewrite Hfirst. }
    rewrite Hsame, process_line_plain; [|now left | cbn [plain]; now rewrite Hlf].
    cbn [fields field app]. rewrite split_tab_glue.
    cbn [chomp]. rewrite Hlf. reflexivity.
Qed.

Lemma reader_turns_plain lines :
  forallb plain lines = true ->
  reader_turns parse_reset lines = map (fun l => Row (tab_fields (chomp l))) lines.
Proof.
  induction lines as [|l lines IH]; [reflexivity|].
  cbn [forallb]. rewrite andb_true_iff. intros [Hl Hrest].
  cbn [reader_turns map]. rewrite (process_line_plain_record l Hl).
  cbn [state fields]. now rewrite IH.
Qed.

(** Reasoning on [universal_newlines], which looks two characters ahead. *)
Lemma universal_newlines_ind (P : string -> string -> Prop) :
  P EmptyString EmptyString ->
  (forall c rest, Ascii.eqb c CR = false ->
     P rest (universal_newlines rest) ->
     P (String c rest) (String c (universal_newlines rest))) ->
  P (String CR EmptyString) (String LF EmptyString) ->
  (forall rest, P rest (universal_newlines rest) ->
     P (String CR (String LF rest)) (String LF (universal_newlines rest))) ->
  (forall c rest, Ascii.eqb c LF = false ->
     P (String c rest) (universal_newlines (String c rest)) ->
     P (String CR (String c rest)) (String LF (universal_newlines (String c rest)))) ->
  forall s, P s (universal_newlines s).
Proof.
  intros Hnil Hchar Hcr Hcrlf Hcrc.
  assert (H : forall s, P s (universal_newlines s)
                        /\ forall c, P (String c s) (universal_newlines (String c s))).
  { induction s as [|a s [IHs IHc]].
    - split; [exact Hnil|]. intros c. cbn [universal_newlines].
      destruct (Ascii.eqb c CR) eqn:Hc.
      + apply Ascii.eqb_eq in Hc. subst c. exact Hcr.
      + now apply Hchar.
    - split; [apply IHc|]. intros c.
      change (universal_newlines (String c (String a s)))
        with (if Ascii.eqb c CR
              then String LF (if Ascii.eqb a LF then universal_newlines s
                              else universal_newlines (String a s))
              else String c (universal_newlines (String a s))).
      destruct (Ascii.eqb c CR) eqn:Hc.
      + apply Ascii.eqb_eq in Hc. subst c. destruct (Ascii.eqb a LF) eqn:Ha.
        * apply Ascii.eqb_eq in Ha. subst a. now apply Hcrlf.
        * apply Hcrc; [assumption | apply IHc].
      + apply Hchar; [assumption | apply IHc]. }
  intros s. apply H.
Qed.

Lemma universal_newlines_no_CR s : has_char CR (universal_newlines s) = false.
Proof.
  apply (universal_newlines_ind (fun _ t => has_char CR t = false)); cbn; try easy.
  intros c rest Hc IH. now rewrite Hc.
Qed.

Lemma universal_newlines_quote s :
  has_char DQUOTE (universal_newlines s) = has_char DQUOTE s.
Proof.
  apply (universal_newlines_ind
           (fun s t => has_char DQUOTE t = has_char DQUOTE s)); cbn; try easy.
  intros c rest Hc IH. now rewrite IH.
Qed.

Lemma universal_newlines_plain s :
  has_char CR s = false -> universal_newlines s = s.
Proof.
  induction s as [|c s IH]; [reflexivity|]. cbn [has_char universal_newlines].
  intros H. apply orb_false_iff in H. destruct H as [Hc Hs].
  now rewrite Hc, IH.
Qed.

Lemma readlines_plain s :
  has_char DQUOTE s = false -> has_char CR s = false ->
  forallb plain (readlines s) = true.
Proof.
  induction s as [|c s IH]; [reflexivity|]. cbn [has_char readlines].
  intros Hq Hcr. apply orb_false_iff in Hq, Hcr.
  destruct Hq as [Hq Hqs], Hcr as [Hcr Hcrs]. specialize (IH Hqs Hcrs).
  destruct (Ascii.eqb c LF) eqn:Hlf; [exact IH|].
  destruct (readlines s) as [|l ls]; cbn [forallb plain] in *;
    rewrite Hlf, Hq, Hcr; [reflexivity | exact IH].
Qed.

(** The link from the file to its rows: on a text without double quotes
    the reader gives one record for each line of the file, in order,
    holding the tab-separated fields of the line (no field for an empty
    line). *)
Lemma csv_reader_lines (text : string) :
  quote_free text = true -> csv_reader text = line_rows text.
Proof.
  unfold quote_free, csv_reader, line_rows, source_lines. intros Hq.
  apply negb_true_iff in Hq. rewrite map_map. apply reader_turns_plain.
  apply readlines_plain; [now rewrite universal_newlines_quote|].
  apply universal_newlines_no_CR.
Qed.

(** ** Files written line by line *)

Lemma plain_text_line l :
  plain_text l = true ->
  plain (l ++ String LF EmptyString) = true
  /\ chomp (l ++ String LF EmptyString) = l.
Proof.
  unfold plain_text. induction l as [|c l IH]; [now split|].
  cbn [has_char append plain chomp]. rewrite !negb_orb, !andb_true_iff.
  rewrite !negb_true_iff. intros [[[Hq Hqs] [Hcr Hcrs]] [Hlf Hlfs]].
  rewrite Hlf, Hq, Hcr. cbn [negb andb].
  destruct IH as [IH1 IH2]; [now rewrite Hqs, Hcrs, Hlfs|].
  now rewrite IH1, IH2.
Qed.

Lemma universal_newlines_line l rest :
  has_char CR l = false ->
  universal_newlines (l ++ String LF rest) = (l ++ String LF (universal_newlines rest))%string.
Proof.
  induction l as [|c l IH]; [reflexivity|]. cbn [has_char append].
  intros H. apply orb_false_iff in H. destruct H as [Hc Hl].
  cbn [universal_newlines]. now rewrite Hc, IH.
Qed.

Lemma readlines_line l rest :
  has_char LF l = false ->
  readlines (l ++ String LF rest) = (l ++ String LF EmptyString)%string :: readlines rest.
Proof.
  induction l as [|c l IH]; [reflexivity|]. cbn [has_char append].
  intros H. apply orb_false_iff in H. destruct H as [Hc Hl].
  cbn [readlines]. now rewrite Hc, IH.
Qed.


Lemma source_lines_first_line h rest :
  plain_text h = true ->
  source_lines (h ++ String LF rest) = h :: source_lines rest.
Proof.
  intros Hh. destruct (plain_text_line h Hh) as [_ Hchomp].
  unfold plain_text in Hh. rewrite !andb_true_iff, !negb_true_iff in Hh.
  destruct Hh as [[Hq Hcr] Hlf]. unfold source_lines.
  rewrite (universal_newlines_line h rest Hcr), (readlines_line h _ Hlf).
  cbn [map]. now rewrite Hchomp.
Qed.

Lemma text_of_lines ls :
  forallb plain_text ls = true ->
  source_lines (text_of ls) = ls /\ quote_free (text_of ls) = true.
Proof.
  induction ls as [|l ls IH]; [now split|].
  cbn [forallb text_of]. rewrite andb_true_iff. intros [Hl Hls].
  destruct (IH Hls) as [IH1 IH2]. split.
  - now rewrite (source_lines_first_line l _ Hl), IH1.
  - unfold quote_free, plain_text in *. rewrite !andb_true_iff, !negb_true_iff in Hl.
    destruct Hl as [[Hq _] _]. apply negb_true_iff in IH2. apply negb_true_iff.
    clear -Hq IH2. induction l as [|c l IHl]; cbn [append has_char] in *.
    + exact IH2.
    + apply orb_false_iff in Hq. destruct Hq as [Hc Hq]. now rewrite Hc, IHl.
Qed.

(** ** Rows of lines *)

Lemma tl_map {A B} (g : A -> B) (l : list A) : tl (map g l) = map g (tl l).
Proof. now destruct l. Qed.

Lemma accepted_lines_of_lines ls :
  accepted_lines (map (fun l => Row (tab_fields l)) ls)
  = map (fun l => Row (tab_fields l)) (filter flagged ls).
Proof.
  unfold accepted_lines. induction ls as [|l ls IH]; [reflexivity|].
  cbn [map filter accepted_item]. unfold flagged at 1.
  destruct (accepted (tab_fields l)); cbn [map]; now rewrite IH.
Qed.

(** On a file without double quotes the run starts from the lines of the
    file, split at the tabs. *)
Lemma on_disk_quote_free text dst :
  quote_free text = true ->
  on_disk (Some text) dst = initial (Some (line_rows text)) dst.
Proof. intros Hq. unfold on_disk. cbn. now rewrite csv_reader_lines. Qed.

Lemma well_formed_iff l :
  well_formed l = true <->
  (3 <= List.length (tab_fields l))%nat
  /\ (flagged l = true -> (8 <= List.length (tab_fields l))%nat).
Proof.
  unfold well_formed, flagged. rewrite readable_Row. split.
  - intros [H3 H8]. split; [exact H3|]. intros Ha.
    destruct H8 as [H8|H8]; [congruence | exact H8].
  - intros [H3 H8]. split; [exact H3|].
    destruct (accepted (tab_fields l)); [right; now apply H8 | now left].
Qed.

Lemma readable_lines ls :
  forallb readable (map (fun l => Row (tab_fields l)) ls) = forallb well_formed ls.
Proof.
  induction ls as [|l ls IH]; [reflexivity|]. cbn [map forallb]. now rewrite IH.
Qed.

Lemma accepted_rows_of_lines ls :
  forallb well_formed ls = true ->
  accepted_rows (map (fun l => Row (tab_fields l)) ls)
  = map line_description (filter flagged ls).
Proof.
  induction ls as [|l ls IH]; [reflexivity|].
  cbn [forallb map filter accepted_rows]. intros H.
  apply andb_true_iff in H. destruct H as [Hl Hls].
  apply well_formed_iff in Hl. destruct Hl as [H3 H8]. unfold flagged in *.
  destruct (accepted (tab_fields l)); [|now apply IH].
  specialize (H8 eq_refl). unfold projection.
  rewrite (nth_error_nth' (tab_fields l) EmptyString (n := 0)) by lia.
  rewrite (nth_error_nth' (tab_fields l) EmptyString (n := 4)) by lia.
  rewrite (nth_error_nth' (tab_fields l) EmptyString (n := 7)) by lia.
  cbn [map]. now rewrite (IH Hls).
Qed.

(** [importable], on the lines of a file. *)
Lemma importable_lines text :
  importable (line_rows text) = true <->
  exists h data,
    source_lines text = h :: data
    /\ forallb well_formed data = true
    /\ NoDup (map (field_of 0) (filter flagged data)).
Proof.
  unfold line_rows. destruct (source_lines text) as [|h data].
  - split; [discriminate | now intros [h [data [[=] _]]]].
  - cbn [map importable]. rewrite andb_true_iff, readable_lines, distinct_ids_NoDup.
    split.
    + intros [Hr Hn]. exists h, data. split; [reflexivity|]. split; [exact Hr|].
      rewrite (accepted_rows_of_lines data Hr), map_map in Hn. exact Hn.
    + intros [h' [data' [[= <- <-] [Hr Hn]]]]. split; [exact Hr|].
      rewrite (accepted_rows_of_lines data Hr), map_map. exact Hn.
Qed.

Lemma stored_of_file text dst :
  quote_free text = true ->
  stored (snd (convert_to_sqlite (on_disk (Some text) dst)))
  = if importable (line_rows text)
    then map line_description (filter flagged (tl (source_lines text)))
    else [].
Proof.
  intros Hq. rewrite (on_disk_quote_free text dst Hq).
  unfold convert_to_sqlite, stored. rewrite stored_after_run. cbn [descriptions].
  destruct (importable (line_rows text)) eqn:Hi; [|reflexivity].
  apply importable_lines in Hi. destruct Hi as [h [data [Hs [Hr _]]]].
  unfold line_rows. rewrite Hs. cbn [map tl]. now apply accepted_rows_of_lines.
Qed.




(** ** The reader and the run on files with double quotes *)

(** The reader takes the quotes off the first word of the term. *)
Example csv_reader_lupus_file :
  csv_reader lupus_file =
    [Row (tab_fields header_line);
     Row ["101"; "20250801"; "1"; "900000000000207008"; "404684003"; "en";
          "900000000000013009"; "Lupus anticoagulant"; "900000000000448009"]].
Proof. vm_compute. reflexivity. Qed.

(** A quote opened at the start of a field and never closed takes the
    rest of the file into that field: four lines, two records. *)
Example csv_reader_open_quote_file :
  List.length (source_lines open_quote_file) = 4%nat
  /\ List.length (csv_reader open_quote_file) = 2%nat
  /\ fst (convert_to_sqlite (on_disk (Some open_quote_file) None)) = Ok PyNone.
Proof. split; [|split]; vm_compute; reflexivity. Qed.

(** A line with a single field that ends in a double quote closes the
    quote a field of the line before opened: the short line is no record
    of its own and the run returns. *)
Example csv_reader_short_line_in_quotes :
  let text :=
    text_of [header_line;
             snapshot_line "101" "0" "138875005" (String DQUOTE "SNOMED CT Concept");
             String.append "short" (String DQUOTE EmptyString)] in
  List.length (tab_fields (String.append "short" (String DQUOTE EmptyString))) = 1%nat
  /\ List.length (csv_reader text) = 2%nat
  /\ fst (convert_to_sqlite (on_disk (Some text) None)) = Ok PyNone.
Proof. split; [|split]; vm_compute; reflexivity. Qed.

(** ** The claims that speak of lines and fields *)




(** C2: the code at a failing input.  The data line has the flag '1' and
    its tab-separated field at index 7 is the term with the double quotes
    around its first word; the run returns and the row written for the
    line has another term, the one without the quotes. *)
Theorem quoted_term_stored_without_quotes :
  nth_error (tab_fields lupus_line) 2 = Some "1"
  /\ nth_error (tab_fields lupus_line) 7 = Some lupus_term
  /\ convert_to_sqlite (on_disk (Some lupus_file) None) =
       (Ok PyNone,
        World (Some (csv_reader lupus_file))
              (Some (Sqlite (Database built_schema
                 [Description "101" "404684003" "Lupus anticoagulant" 1])))
              [Creating_SQLite_DB; Reading_SNOMED_file; Done_Imported 1]
              Closed Disconnected)
  /\ lupus_term <> "Lupus anticoagulant".
Proof.
  split; [|split; [|split]]; [vm_compute; reflexivity .. | discriminate].
Qed.




(** C9: the code at failing inputs.  After an active line cut after its
    flag (IndexError), after an id met twice (IntegrityError) and after a
    turn of the reader that fails, the function is left with the file
    object closed and the connection still open: line 70 is not reached
    and nothing else closes the connection. *)
Theorem connection_left_open :
  (fst (convert_to_sqlite (on_disk (Some (file_of cut_active)) None)) = Raise IndexError
   /\ f (snd (convert_to_sqlite (on_disk (Some (file_of cut_active)) None))) = Closed
   /\ conn (snd (convert_to_sqlite (on_disk (Some (file_of cut_active)) None)))
      = Connected [])
  /\ (fst (convert_to_sqlite (on_disk (Some (file_of twice_101)) None))
      = Raise IntegrityError
      /\ f (snd (convert_to_sqlite (on_disk (Some (file_of twice_101)) None))) = Closed
      /\ conn (snd (convert_to_sqlite (on_disk (Some (file_of twice_101)) None)))
         = Connected [Description "101" "138875005" "SNOMED CT Concept" 1])
  /\ (fst (convert_to_sqlite (initial (Some [header; Fault]) None)) = Raise ReadError
      /\ f (snd (convert_to_sqlite (initial (Some [header; Fault]) None))) = Closed
      /\ conn (snd (convert_to_sqlite (initial (Some [header; Fault]) None)))
         = Connected [])
  /\ ~ released (snd (convert_to_sqlite (on_disk (Some (file_of cut_active)) None))).
Proof.
  split; [|split; [|split]].
  - split; [|split]; vm_compute; reflexivity.
  - split; [|split]; vm_compute; reflexivity.
  - split; [|split]; vm_compute; reflexivity.
  - intros [_ H]. apply (H []). vm_compute. reflexivity.
Qed.

(** ** Further properties, on the file *)

(** X12: in a file that holds no double quote, every row of the output
    table comes from a data line whose field at index 2 is '1', with id =
    field 0, conceptId = field 4, term = field 7 and active = 1; and when
    the file is importable the table holds, in the order of the file,
    exactly one such row for each of those lines. *)
Theorem persisted_fields_of_file (text : string) (dst : option file) :
  quote_free text = true ->
  (forall d,
     In d (stored (snd (convert_to_sqlite (on_disk (Some text) dst)))) ->
     exists l, In l (tl (source_lines text))
               /\ nth_error (tab_fields l) 2 = Some "1"
               /\ nth_error (tab_fields l) 0 = Some (id d)
               /\ nth_error (tab_fields l) 4 = Some (conceptId d)
               /\ nth_error (tab_fields l) 7 = Some (term d)
               /\ active d = 1%Z)
  /\ (importable (line_rows text) = true ->
      stored (snd (convert_to_sqlite (on_disk (Some text) dst)))
      = map line_description (filter flagged (tl (source_lines text)))).
Proof.
  intros Hq. split.
  - rewrite (on_disk_quote_free text dst Hq). intros d Hd.
    destruct (proj1 (rows_persisted_fields (line_rows text) dst) d Hd)
      as [r [Hin H]].
    unfold line_rows in Hin. rewrite tl_map in Hin. apply in_map_iff in Hin.
    destruct Hin as [l [[= <-] Hl]]. now exists l.
  - intros Hi. now rewrite (stored_of_file text dst Hq), Hi.
Qed.

Lemma persisted_fields_of_file_witness :
  quote_free (file_of three_lines) = true
  /\ importable (line_rows (file_of three_lines)) = true
  /\ stored (snd (convert_to_sqlite (on_disk (Some (file_of three_lines)) None)))
     = map line_description (filter flagged (tl (source_lines (file_of three_lines)))).
Proof.
  split; [vm_compute; reflexivity|]. split; [vm_compute; reflexivity|].
  refine (proj2 (persisted_fields_of_file (file_of three_lines) None _) _);
    vm_compute; reflexivity.
Defined.





(** X9: for a file written line by line, each line without double quote,
    CR or LF: when the run on it returns, the run on the file without the
    data lines whose field at index 2 is not '1' returns as well, leaves
    the same file at the destination and prints the same lines. *)
Theorem prefiltered_file (h : string) (data : list string) (dst : option file) :
  forallb plain_text (h :: data) = true ->
  fst (convert_to_sqlite (on_disk (Some (text_of (h :: data))) dst)) = Ok PyNone ->
  fst (convert_to_sqlite (on_disk (Some (text_of (h :: filter flagged data))) dst))
    = Ok PyNone
  /\ dest_file (snd (convert_to_sqlite
                       (on_disk (Some (text_of (h :: filter flagged data))) dst)))
     = dest_file (snd (convert_to_sqlite
                         (on_disk (Some (text_of (h :: data))) dst)))
  /\ stdout (snd (convert_to_sqlite
                    (on_disk (Some (text_of (h :: filter flagged data))) dst)))
     = stdout (snd (convert_to_sqlite
                      (on_disk (Some (text_of (h :: data))) dst))).
Proof.
  intros Hp.
  assert (Hp' : forallb plain_text (h :: filter flagged data) = true).
  { cbn [forallb] in *. apply andb_true_iff in Hp. destruct Hp as [Hh Hd].
    rewrite Hh. cbn [andb]. rewrite forallb_forall in *.
    intros l Hl. apply filter_In in Hl. now apply Hd. }
  destruct (text_of_lines _ Hp) as [Hs Hq].
  destruct (text_of_lines _ Hp') as [Hs' Hq'].
  rewrite (on_disk_quote_free _ dst Hq), (on_disk_quote_free _ dst Hq').
  unfold line_rows. rewrite Hs, Hs'. cbn [map].
  rewrite <- accepted_lines_of_lines. intros Hok.
  assert (Hi : importable (Row (tab_fields h)
                             :: map (fun l => Row (tab_fields l)) data) = true).
  { apply (rows_complete_exactly_when (Some _) dst) in Hok.
    destruct Hok as [[=] | [h' [data' [[= <- <-] H]]]].
    apply importable_iff.
    now exists (tab_fields h), (map (fun l => Row (tab_fields l)) data). }
  destruct (prefiltered_rows _ _ dst Hi) as [_ [H1 [H2 H3]]].
  rewrite H1, H2, H3. now split.
Qed.

Lemma prefiltered_file_witness :
  fst (convert_to_sqlite
         (on_disk (Some (text_of (header_line
                                    :: filter flagged
                                         [snapshot_line "101" "1" "138875005" "SNOMED CT Concept";
                                          snapshot_line "102" "0" "138875005" "SNOMED CT";
                                          snapshot_line "103" "1" "404684003" "Clinical finding"])))
                  None))
  = Ok PyNone.
Proof.
  refine (proj1 (prefiltered_file header_line _ None _ _)); vm_compute; reflexivity.
Defined.

(** X11: on a text that holds no double quote [csv.reader(f,
    delimiter='\t')] does nothing but split: it gives one record for each
    line of the file, in order, holding what lies between the tabs of the
    line (no field at all for an empty line); no turn fails, and a record
    never spans two lines. *)
Theorem csv_reader_quote_free (text : string) :
  quote_free text = true ->
  csv_reader text = map (fun l => Row (tab_fields l)) (source_lines text)
  /\ List.length (csv_reader text) = List.length (source_lines text)
  /\ ~ In Fault (csv_reader text).
Proof.
  intros Hq. rewrite (csv_reader_lines text Hq). unfold line_rows.
  split; [reflexivity|]. split; [apply length_map|].
  intros Hin. apply in_map_iff in Hin. now destruct Hin as [l [[=] _]].
Qed.

Lemma csv_reader_quote_free_witness :
  csv_reader (file_of three_lines)
  = map (fun l => Row (tab_fields l)) (source_lines (file_of three_lines))
  /\ List.length (csv_reader (file_of three_lines))
     = List.length (source_lines (file_of three_lines))
  /\ ~ In Fault (csv_reader (file_of three_lines)).
Proof.
  refine (csv_reader_quote_free (file_of three_lines) _). vm_compute. reflexivity.
Defined.
